(** * Gitea webhook dispatcher of go-scm: model and properties

    Shallow embedding of [scm/driver/gitea/webhook.go].  Go strings and
    byte slices are [string] (a sequence of 8-bit characters), a Go
    [error] that may be nil is [option error], an interface value that
    may be nil is an [option].  The request is modelled with what
    [Parse] touches of it: the header, the body stream, which is read
    once and moves on, and the form, which [Request.FormValue] of
    net/http parses on demand from the query of the URL and from what the
    body stream still holds.  Go's standard library ([encoding/json],
    [mime], [net/url], [mime/multipart]), the HMAC helper of [pkg/hmac]
    and the converters defined in the other files of the driver are the
    fields of the class [Collaborators]; the dispatcher is defined and
    verified for every instance of it. *)

From Stdlib Require Import String Ascii List ZArith Bool Lia.
Import ListNotations.
Open Scope string_scope.
Open Scope list_scope.
Set Warnings "-register-all".

(** ** Errors *)

(** The errors that flow through [Parse].  [UnknownWebhook] and
    [ErrSignatureInvalid] are the two values of package [scm] that
    webhook.go builds; every error made elsewhere (reading the body,
    [encoding/json], the caller's [SecretFunc]) is an [ExternalError]
    tagged with its origin. *)
Inductive error : Type :=
| UnknownWebhook (Event : string)
| ErrSignatureInvalid
| ExternalError (origin message : string).

(** ** Package scm: the canonical event model *)

Module scm.

(** Modelled from the spec: the canonical action enumeration of section 3;
    [ActionUnknown] is the zero value of the Go type. *)
Inductive Action : Type :=
| ActionUnknown
| ActionCreate
| ActionDelete
| ActionUpdate
| ActionOpen
| ActionReopen
| ActionClose
| ActionLabel
| ActionUnlabel
| ActionMerge
| ActionSync
| ActionAssigned
| ActionUnassigned
| ActionSubmitted
| ActionDismissed
| ActionEdited.

(** [time.Time], kept as its RFC 3339 text; the empty text stands for the
    zero instant. *)
Definition Time : Type := string.

(** Modelled from the spec: a user snapshot (login, display name, email,
    avatar URL). *)
Record User : Type := mkUser {
  User_Login : string;
  User_Name : string;
  User_Email : string;
  User_Avatar : string }.

(** Modelled from the spec: a repository snapshot (namespace, name,
    default branch, clone URLs). *)
Record Repository : Type := mkRepository {
  Repository_Namespace : string;
  Repository_Name : string;
  Repository_Branch : string;
  Repository_Clone : string;
  Repository_CloneSSH : string }.

Record Reference : Type := mkReference {
  Reference_Name : string;
  Reference_Sha : string }.

Record Signature : Type := mkSignature {
  Signature_Login : string;
  Signature_Email : string;
  Signature_Name : string;
  Signature_Date : Time }.

Record Commit : Type := mkCommit {
  Commit_Sha : string;
  Commit_Message : string;
  Commit_Link : string;
  Commit_Author : Signature;
  Commit_Committer : Signature }.

Record Issue : Type := mkIssue {
  Issue_Number : Z;
  Issue_Title : string;
  Issue_Body : string;
  Issue_Author : User }.

Record Comment : Type := mkComment {
  Comment_ID : Z;
  Comment_Body : string;
  Comment_Author : User }.

Record PullRequest : Type := mkPullRequest {
  PullRequest_Number : Z;
  PullRequest_Title : string;
  PullRequest_Body : string;
  PullRequest_Author : User }.

Record Review : Type := mkReview {
  Review_Body : string;
  Review_Author : User }.

Record PushHook : Type := mkPushHook {
  PushHook_Ref : string;
  PushHook_Commit : Commit;
  PushHook_Repo : Repository;
  PushHook_Sender : User }.

Record BranchHook : Type := mkBranchHook {
  BranchHook_Action : Action;
  BranchHook_Ref : Reference;
  BranchHook_Repo : Repository;
  BranchHook_Sender : User }.

Record TagHook : Type := mkTagHook {
  TagHook_Action : Action;
  TagHook_Ref : Reference;
  TagHook_Repo : Repository;
  TagHook_Sender : User }.

Record IssueHook : Type := mkIssueHook {
  IssueHook_Action : Action;
  IssueHook_Issue : Issue;
  IssueHook_Repo : Repository;
  IssueHook_Sender : User }.

Record IssueCommentHook : Type := mkIssueCommentHook {
  IssueCommentHook_Action : Action;
  IssueCommentHook_Issue : Issue;
  IssueCommentHook_Comment : Comment;
  IssueCommentHook_Repo : Repository;
  IssueCommentHook_Sender : User }.

Record PullRequestHook : Type := mkPullRequestHook {
  PullRequestHook_Action : Action;
  PullRequestHook_PullRequest : PullRequest;
  PullRequestHook_Repo : Repository;
  PullRequestHook_Sender : User }.

Record PullRequestCommentHook : Type := mkPullRequestCommentHook {
  PullRequestCommentHook_Action : Action;
  PullRequestCommentHook_PullRequest : PullRequest;
  PullRequestCommentHook_Comment : Comment;
  PullRequestCommentHook_Repo : Repository;
  PullRequestCommentHook_Sender : User }.

(** Modelled from the spec: every variant carries one Repository and one
    Sender, so the review variant has a [Sender] field next to the four
    fields that webhook.go fills in. *)
Record ReviewHook : Type := mkReviewHook {
  ReviewHook_Action : Action;
  ReviewHook_PullRequest : PullRequest;
  ReviewHook_Repo : Repository;
  ReviewHook_Review : Review;
  ReviewHook_Sender : User }.

(** The interface [scm.Webhook], closed over the variants that the gitea
    driver returns. *)
Inductive Webhook : Type :=
| OfPushHook (h : PushHook)
| OfBranchHook (h : BranchHook)
| OfTagHook (h : TagHook)
| OfIssueHook (h : IssueHook)
| OfIssueCommentHook (h : IssueCommentHook)
| OfPullRequestHook (h : PullRequestHook)
| OfPullRequestCommentHook (h : PullRequestCommentHook)
| OfReviewHook (h : ReviewHook).

(** [SecretFunc]: the caller's lookup of the expected key, given the
    parsed event. *)
Definition SecretFunc : Type := option Webhook -> string * option error.

Definition zeroUser : User := mkUser "" "" "" "".
Definition zeroRepository : Repository := mkRepository "" "" "" "" "".



End scm.

(** ** Package code.gitea.io/sdk/gitea: the payload objects

    Only the fields that the driver reads are kept. *)

Module sdk.

Record User : Type := mkUser {
  User_UserName : string;
  User_FullName : string;
  User_Email : string;
  User_AvatarURL : string }.

Record Repository : Type := mkRepository {
  Repository_Owner : User;
  Repository_Name : string;
  Repository_DefaultBranch : string;
  Repository_CloneURL : string;
  Repository_SSHURL : string }.

Record PullRequestMeta : Type := mkPullRequestMeta {
  PullRequestMeta_HasMerged : bool }.

Record Issue : Type := mkIssue {
  Issue_Index : Z;
  Issue_Title : string;
  Issue_Body : string;
  Issue_Poster : User;
  Issue_PullRequest : option PullRequestMeta }.

Record Comment : Type := mkComment {
  Comment_ID : Z;
  Comment_Body : string;
  Comment_Poster : User }.

Record PullRequest : Type := mkPullRequest {
  PullRequest_Index : Z;
  PullRequest_Title : string;
  PullRequest_Body : string;
  PullRequest_Poster : User }.

Definition zeroUser : User := mkUser "" "" "" "".
Definition zeroRepository : Repository := mkRepository zeroUser "" "" "" "".
Definition zeroIssue : Issue := mkIssue 0%Z "" "" zeroUser None.
Definition zeroComment : Comment := mkComment 0%Z "" zeroUser.
Definition zeroPullRequest : PullRequest := mkPullRequest 0%Z "" "" zeroUser.

End sdk.

(** ** Native data structures of the driver *)

(** The commit identity and commit objects of the driver (declared next
    to the git service); the fields are those read by [convertPushHook]. *)
Record signature : Type := mksignature {
  signature_Name : string;
  signature_Email : string;
  signature_Username : string }.

Record commit : Type := mkcommit {
  commit_Message : string;
  commit_Author : signature;
  commit_Committer : signature;
  commit_Timestamp : scm.Time }.

Record pushHook : Type := mkpushHook {
  pushHook_Secret : string;
  pushHook_Ref : string;
  pushHook_Before : string;
  pushHook_After : string;
  pushHook_Compare : string;
  pushHook_Commits : list commit;
  pushHook_Repository : sdk.Repository;
  pushHook_Pusher : sdk.User;
  pushHook_Sender : sdk.User }.

Record createHook : Type := mkcreateHook {
  createHook_Ref : string;
  createHook_RefType : string;
  createHook_Sha : string;
  createHook_DefaultBranch : string;
  createHook_Repository : sdk.Repository;
  createHook_Sender : sdk.User }.

Record issueHook : Type := mkissueHook {
  issueHook_Action : string;
  issueHook_Issue : sdk.Issue;
  issueHook_Comment : sdk.Comment;
  issueHook_Repository : sdk.Repository;
  issueHook_Sender : sdk.User }.

Record pullRequestHook : Type := mkpullRequestHook {
  pullRequestHook_Action : string;
  pullRequestHook_Number : Z;
  pullRequestHook_PullRequest : sdk.PullRequest;
  pullRequestHook_Repository : sdk.Repository;
  pullRequestHook_Sender : sdk.User }.

Record pullRequestReviewPayload : Type := mkpullRequestReviewPayload {
  pullRequestReviewPayload_Type : string;
  pullRequestReviewPayload_Content : string }.

Record pullRequestReviewHook : Type := mkpullRequestReviewHook {
  pullRequestReviewHook_Action : string;
  pullRequestReviewHook_Number : Z;
  pullRequestReviewHook_PullRequest : sdk.PullRequest;
  pullRequestReviewHook_Repository : sdk.Repository;
  pullRequestReviewHook_Sender : sdk.User;
  pullRequestReviewHook_Review : pullRequestReviewPayload }.

(** ** The inbound request *)

(** The body stream: the bytes it delivers, then end of file or the
    error that breaks the stream off.  A Go reader may report its end
    together with the last bytes it delivers or on the read after them;
    [stream_eager] tells which. *)
Record ReadCloser : Type := mkReadCloser {
  stream_bytes : string;
  stream_err : option error;
  stream_eager : bool }.

(** [http.Header] and [url.Values]: keys to their lists of values. *)
Definition Values : Type := list (string * list string).

(** [*http.Request]: the method, the raw query of the URL, the header,
    the body stream and the field [Form], which is nil until the form is
    parsed. *)
Record Request : Type := mkRequest {
  Method : string;
  RawQuery : string;
  Header : Values;
  Body : ReadCloser;
  Form : option Values }.

(** [Values.Get]: the first value stored under the key, or the empty
    string. *)
Fixpoint Get (vs : Values) (key : string) : string :=
  match vs with
  | [] => ""
  | (k, v) :: rest =>
      if String.eqb k key then
        match v with
        | [] => ""
        | x :: _ => x
        end
      else Get rest key
  end.

(** The values of a key in values gathered one after the other, as
    [Values.Add] gathers them, and the first of them or the empty
    string. *)
Definition valuesOf (vs : Values) (key : string) : list string :=
  flat_map (fun kv => if String.eqb (fst kv) key then snd kv else []) vs.

Definition firstValue (vs : Values) (key : string) : string :=
  hd "" (valuesOf vs key).

(** The request with another body stream. *)
Definition withBody (req : Request) (body : ReadCloser) : Request :=
  {| Method := Method req;
     RawQuery := RawQuery req;
     Header := Header req;
     Body := body;
     Form := Form req |}.

(** [ioutil.ReadAll(io.LimitReader(r, n))] on a stream that delivers
    [s] and then ends with [e]: once [n] bytes are taken the limited
    reader reports end of file without touching the stream again, so an
    error at the end of the stream is met when the stream ends before
    [n] bytes, or at [n] bytes if the reader reports it with its last
    bytes. *)
Fixpoint readLimited (n : Z) (s : string) (e : option error) (eager : bool)
  : string * option error :=
  if (n <=? 0)%Z then ("", None)
  else match s with
       | EmptyString => ("", e)
       | String c s' =>
           if eager && (match s' with EmptyString => true | _ => false end)
           then (String c "", e)
           else let (d, e') := readLimited (n - 1) s' e eager in
                (String c d, e')
       end.

Definition ReadAll_LimitReader (r : ReadCloser) (n : Z)
  : string * option error :=
  readLimited n (stream_bytes r) (stream_err r) (stream_eager r).

(** What a stream still holds after [n] of its bytes were taken. *)
Fixpoint dropBytes (n : Z) (s : string) : string :=
  if (n <=? 0)%Z then s
  else match s with
       | EmptyString => EmptyString
       | String _ s' => dropBytes (n - 1) s'
       end.

(** The stream as the limited read leaves it. *)
Definition unread (r : ReadCloser) (n : Z) : ReadCloser :=
  {| stream_bytes := dropBytes n (stream_bytes r);
     stream_err := stream_err r;
     stream_eager := stream_eager r |}.

(** ** What the dispatcher calls outside webhook.go *)

Class Collaborators : Type := {
  (** [json.Unmarshal(data, dst)] on a fresh [dst] of each native type:
      the (possibly partly filled) destination and the error. *)
  Unmarshal_pushHook : string -> pushHook * option error;
  Unmarshal_createHook : string -> createHook * option error;
  Unmarshal_issueHook : string -> issueHook * option error;
  Unmarshal_pullRequestHook : string -> pullRequestHook * option error;
  Unmarshal_pullRequestReviewHook :
    string -> pullRequestReviewHook * option error;
  (** [hmac.Validate(sha256.New, data, key, signature)]. *)
  hmac_Validate : string -> string -> string -> bool;
  (** The converters of the other files of the driver. *)
  convertRepository : sdk.Repository -> scm.Repository;
  convertUser : sdk.User -> scm.User;
  convertIssue : sdk.Issue -> scm.Issue;
  convertIssueComment : sdk.Comment -> scm.Comment;
  convertPullRequest : sdk.PullRequest -> scm.PullRequest;
  convertPullRequestFromIssue : sdk.Issue -> scm.PullRequest;
  (** What net/http calls to parse a form: the media type that
      [mime.ParseMediaType] returns for a Content-Type value, the values
      that [url.ParseQuery] returns for a query text, errors apart, and
      the values of the multipart form that [multipartReader] and
      [ReadForm] read from a body under a Content-Type value (none when
      the value is not multipart/form-data or the body cannot be read as
      such). *)
  mime_ParseMediaType : string -> string;
  url_ParseQuery : string -> Values;
  multipart_Values : string -> ReadCloser -> Values }.

(** ** webhook.go *)

Section Driver.

Context `{Collaborators}.

(** *** Action mapping *)

Definition convertReviewAction (src : string) : scm.Action :=
  if src =? "pull_request_review_approved" then scm.ActionSubmitted
  else if src =? "pull_request_review_comment" then scm.ActionEdited
  else if src =? "pull_request_review_rejected" then scm.ActionDismissed
  else scm.ActionUnknown.

Definition convertAction (src : string) : scm.Action :=
  if (src =? "create") || (src =? "created") then scm.ActionCreate
  else if (src =? "delete") || (src =? "deleted") then scm.ActionDelete
  else if (src =? "update") || (src =? "updated")
          || (src =? "edit") || (src =? "edited") then scm.ActionUpdate
  else if (src =? "open") || (src =? "opened") then scm.ActionOpen
  else if (src =? "reopen") || (src =? "reopened") then scm.ActionReopen
  else if (src =? "close") || (src =? "closed") then scm.ActionClose
  else if (src =? "label") || (src =? "labeled")
          || (src =? "label_updated") then scm.ActionLabel
  else if (src =? "unlabel") || (src =? "unlabeled")
          || (src =? "label_cleared") then scm.ActionUnlabel
  else if (src =? "merge") || (src =? "merged") then scm.ActionMerge
  else if (src =? "synchronize") || (src =? "synchronized")
       then scm.ActionSync
  else if src =? "assigned" then scm.ActionAssigned
  else if src =? "unassigned" then scm.ActionUnassigned
  else if src =? "reviewed" then scm.ActionSubmitted
  else scm.ActionUnknown.

(** *** Native data structure conversion *)

Definition convertTagHook (dst : createHook) (action : scm.Action)
  : scm.TagHook :=
  {| scm.TagHook_Action := action;
     scm.TagHook_Ref :=
       {| scm.Reference_Name := createHook_Ref dst;
          scm.Reference_Sha := createHook_Sha dst |};
     scm.TagHook_Repo := convertRepository (createHook_Repository dst);
     scm.TagHook_Sender := convertUser (createHook_Sender dst) |}.

Definition convertBranchHook (dst : createHook) (action : scm.Action)
  : scm.BranchHook :=
  {| scm.BranchHook_Action := action;
     scm.BranchHook_Ref :=
       {| scm.Reference_Name := createHook_Ref dst;
          scm.Reference_Sha := "" |};
     scm.BranchHook_Repo := convertRepository (createHook_Repository dst);
     scm.BranchHook_Sender := convertUser (createHook_Sender dst) |}.

Definition convertPushHook (dst : pushHook) : scm.PushHook :=
  match pushHook_Commits dst with
  | c0 :: _ =>
      (* len(dst.Commits) > 0: c0 is dst.Commits[0] *)
      {| scm.PushHook_Ref := pushHook_Ref dst;
         scm.PushHook_Commit :=
           {| scm.Commit_Sha := pushHook_After dst;
              scm.Commit_Message := commit_Message c0;
              scm.Commit_Link := pushHook_Compare dst;
              scm.Commit_Author :=
                {| scm.Signature_Login := signature_Username (commit_Author c0);
                   scm.Signature_Email := signature_Email (commit_Author c0);
                   scm.Signature_Name := signature_Name (commit_Author c0);
                   scm.Signature_Date := commit_Timestamp c0 |};
              scm.Commit_Committer :=
                {| scm.Signature_Login :=
                     signature_Username (commit_Committer c0);
                   scm.Signature_Email := signature_Email (commit_Committer c0);
                   scm.Signature_Name := signature_Name (commit_Committer c0);
                   scm.Signature_Date := commit_Timestamp c0 |} |};
         scm.PushHook_Repo := convertRepository (pushHook_Repository dst);
         scm.PushHook_Sender := convertUser (pushHook_Sender dst) |}
  | [] =>
      {| scm.PushHook_Ref := pushHook_Ref dst;
         scm.PushHook_Commit :=
           {| scm.Commit_Sha := pushHook_After dst;
              scm.Commit_Message := "";
              scm.Commit_Link := pushHook_Compare dst;
              scm.Commit_Author :=
                {| scm.Signature_Login := sdk.User_UserName (pushHook_Pusher dst);
                   scm.Signature_Email := sdk.User_Email (pushHook_Pusher dst);
                   scm.Signature_Name := sdk.User_FullName (pushHook_Pusher dst);
                   scm.Signature_Date := "" |};
              scm.Commit_Committer :=
                {| scm.Signature_Login := sdk.User_UserName (pushHook_Pusher dst);
                   scm.Signature_Email := sdk.User_Email (pushHook_Pusher dst);
                   scm.Signature_Name := sdk.User_FullName (pushHook_Pusher dst);
                   scm.Signature_Date := "" |} |};
         scm.PushHook_Repo := convertRepository (pushHook_Repository dst);
         scm.PushHook_Sender := convertUser (pushHook_Sender dst) |}
  end.

Definition convertPullRequestHook (dst : pullRequestHook)
  : scm.PullRequestHook :=
  {| scm.PullRequestHook_Action := convertAction (pullRequestHook_Action dst);
     scm.PullRequestHook_PullRequest :=
       convertPullRequest (pullRequestHook_PullRequest dst);
     scm.PullRequestHook_Repo :=
       convertRepository (pullRequestHook_Repository dst);
     scm.PullRequestHook_Sender := convertUser (pullRequestHook_Sender dst) |}.

Definition convertPullRequestReviewPayload (dst : pullRequestReviewHook)
  : scm.Review :=
  {| scm.Review_Body :=
       pullRequestReviewPayload_Content (pullRequestReviewHook_Review dst);
     scm.Review_Author := convertUser (pullRequestReviewHook_Sender dst) |}.

(** The composite literal names Action, PullRequest, Repo and Review;
    Sender keeps its zero value. *)
Definition convertPullRequestReviewHook (dst : pullRequestReviewHook)
  : scm.ReviewHook :=
  {| scm.ReviewHook_Action :=
       convertReviewAction
         (pullRequestReviewPayload_Type (pullRequestReviewHook_Review dst));
     scm.ReviewHook_PullRequest :=
       convertPullRequest (pullRequestReviewHook_PullRequest dst);
     scm.ReviewHook_Repo :=
       convertRepository (pullRequestReviewHook_Repository dst);
     scm.ReviewHook_Review := convertPullRequestReviewPayload dst;
     scm.ReviewHook_Sender := scm.zeroUser |}.

Definition convertPullRequestCommentHook (dst : issueHook)
  : scm.PullRequestCommentHook :=
  {| scm.PullRequestCommentHook_Action := convertAction (issueHook_Action dst);
     scm.PullRequestCommentHook_PullRequest :=
       convertPullRequestFromIssue (issueHook_Issue dst);
     scm.PullRequestCommentHook_Comment :=
       convertIssueComment (issueHook_Comment dst);
     scm.PullRequestCommentHook_Repo :=
       convertRepository (issueHook_Repository dst);
     scm.PullRequestCommentHook_Sender := convertUser (issueHook_Sender dst) |}.

Definition convertIssueHook (dst : issueHook) : scm.IssueHook :=
  {| scm.IssueHook_Action := convertAction (issueHook_Action dst);
     scm.IssueHook_Issue := convertIssue (issueHook_Issue dst);
     scm.IssueHook_Repo := convertRepository (issueHook_Repository dst);
     scm.IssueHook_Sender := convertUser (issueHook_Sender dst) |}.

Definition convertIssueCommentHook (dst : issueHook) : scm.IssueCommentHook :=
  {| scm.IssueCommentHook_Action := convertAction (issueHook_Action dst);
     scm.IssueCommentHook_Issue := convertIssue (issueHook_Issue dst);
     scm.IssueCommentHook_Comment :=
       convertIssueComment (issueHook_Comment dst);
     scm.IssueCommentHook_Repo := convertRepository (issueHook_Repository dst);
     scm.IssueCommentHook_Sender := convertUser (issueHook_Sender dst) |}.

(** *** Decoding one event kind *)

Definition parsePushHook (data : string)
  : option scm.Webhook * pushHook * option error :=
  let (dst, err) := Unmarshal_pushHook data in
  (Some (scm.OfPushHook (convertPushHook dst)), dst, err).

Definition parseCreateHook (data : string)
  : option scm.Webhook * option error :=
  let (dst, err) := Unmarshal_createHook data in
  if createHook_RefType dst =? "tag" then
    (Some (scm.OfTagHook (convertTagHook dst scm.ActionCreate)), err)
  else if createHook_RefType dst =? "branch" then
    (Some (scm.OfBranchHook (convertBranchHook dst scm.ActionCreate)), err)
  else (None, Some (UnknownWebhook (createHook_RefType dst))).

Definition parseDeleteHook (data : string)
  : option scm.Webhook * option error :=
  let (dst, err) := Unmarshal_createHook data in
  if createHook_RefType dst =? "tag" then
    (Some (scm.OfTagHook (convertTagHook dst scm.ActionDelete)), err)
  else if createHook_RefType dst =? "branch" then
    (Some (scm.OfBranchHook (convertBranchHook dst scm.ActionDelete)), err)
  else (None, Some (UnknownWebhook (createHook_RefType dst))).

Definition parseIssueHook (data : string)
  : option scm.Webhook * option error :=
  let (dst, err) := Unmarshal_issueHook data in
  (Some (scm.OfIssueHook (convertIssueHook dst)), err).

Definition parseIssueCommentHook (data : string)
  : option scm.Webhook * option error :=
  let (dst, err) := Unmarshal_issueHook data in
  match sdk.Issue_PullRequest (issueHook_Issue dst) with
  | Some _ =>
      (Some (scm.OfPullRequestCommentHook (convertPullRequestCommentHook dst)),
       err)
  | None =>
      (Some (scm.OfIssueCommentHook (convertIssueCommentHook dst)), err)
  end.

Definition parsePullRequestHook (data : string)
  : option scm.Webhook * option error :=
  let (dst, err) := Unmarshal_pullRequestHook data in
  (Some (scm.OfPullRequestHook (convertPullRequestHook dst)), err).

Definition parsePullRequestReviewHook (data : string)
  : option scm.Webhook * option error :=
  let (dst, err) := Unmarshal_pullRequestReviewHook data in
  (Some (scm.OfReviewHook (convertPullRequestReviewHook dst)), err).

(** *** The form of the request, as net/http parses it *)

(** [maxFormSize] of [parsePostForm]: ten megabytes. *)
Definition maxFormSize : Z := 10485760.

(** [parsePostForm]: the values of a form-encoded body, read from what
    the body stream still holds; none when the media type is another,
    when reading fails or when more than [maxFormSize] bytes are left.
    The body is a plain stream, not one wrapped by [http.MaxBytesReader],
    for which net/http leaves the limit to the wrapper. *)
Definition parsePostForm (req : Request) : Values :=
  let ct := Get (Header req) "Content-Type" in
  let ct := if ct =? "" then "application/octet-stream" else ct in
  if mime_ParseMediaType ct =? "application/x-www-form-urlencoded" then
    let (b, e) := ReadAll_LimitReader (Body req) (maxFormSize + 1) in
    match e with
    | Some _ => []
    | None =>
        if (maxFormSize <? Z.of_nat (String.length b))%Z then []
        else url_ParseQuery b
    end
  else [].

(** [ParseForm]: the values of the body for POST, PUT and PATCH, then
    those of the URL query. *)
Definition ParseForm (req : Request) : Values :=
  (if (Method req =? "POST") || (Method req =? "PUT")
      || (Method req =? "PATCH")
   then parsePostForm req else [])
  ++ url_ParseQuery (RawQuery req).

(** [Request.FormValue]: the first value of the key in [Form], which is
    parsed on this call when it is nil: [ParseMultipartForm] runs
    [ParseForm] and adds the values of a multipart body. *)
Definition FormValue (req : Request) (key : string) : string :=
  match Form req with
  | Some vs => firstValue vs key
  | None =>
      firstValue
        (ParseForm req
         ++ multipart_Values (Get (Header req) "Content-Type") (Body req))
        key
  end.

(** *** Parse *)

(** The body cap of [Parse]. *)
Definition bodyLimit : Z := 10000000.

(** The request as the read of its body leaves it: the stream has moved
    past the bytes that were taken. *)
Definition afterBodyRead (req : Request) : Request :=
  withBody req (unread (Body req) bodyLimit).

(** The switch on the event header (lines 32 to 54): the hook, the
    secret embedded in the payload and the decoding error of the routed
    kind, or [None] in the default case. *)
Definition route (event data : string)
  : option (option scm.Webhook * string * option error) :=
  if event =? "push" then
    let '(hook, push, err) := parsePushHook data in
    Some (hook, pushHook_Secret push, err)
  else if event =? "create" then
    let (hook, err) := parseCreateHook data in Some (hook, "", err)
  else if event =? "delete" then
    let (hook, err) := parseDeleteHook data in Some (hook, "", err)
  else if event =? "issues" then
    let (hook, err) := parseIssueHook data in Some (hook, "", err)
  else if event =? "issue_comment" then
    let (hook, err) := parseIssueCommentHook data in Some (hook, "", err)
  else if event =? "pull_request" then
    let (hook, err) := parsePullRequestHook data in Some (hook, "", err)
  else if event =? "reviewed" then
    let (hook, err) := parsePullRequestReviewHook data in Some (hook, "", err)
  else None.

(** The three signature tests (lines 73 to 90). *)
Definition checkSignature (hook : option scm.Webhook)
  (data key secret signature : string) : option scm.Webhook * option error :=
  if (signature =? "") && (secret =? "") then
    (hook, Some ErrSignatureInvalid)
  else if (signature =? "") && negb (secret =? "") && negb (secret =? key) then
    (hook, Some ErrSignatureInvalid)
  else if negb (signature =? "") && negb (hmac_Validate data key signature) then
    (hook, Some ErrSignatureInvalid)
  else (hook, None).

Definition Parse (req : Request) (fn : scm.SecretFunc)
  : option scm.Webhook * option error :=
  let (data, err) := ReadAll_LimitReader (Body req) bodyLimit in
  match err with
  | Some e => (None, Some e)
  | None =>
      let event := Get (Header req) "X-Gitea-Event" in
      match route event data with
      | None => (None, Some (UnknownWebhook event))
      | Some (hook, secret, err) =>
          match err with
          | Some e => (None, Some e)
          | None =>
              let secret :=
                if secret =? ""
                then FormValue (afterBodyRead req) "secret"
                else secret in
              let (key, err) := fn hook in
              match err with
              | Some e => (hook, Some e)
              | None =>
                  if key =? "" then (hook, None)
                  else
                    let signature := Get (Header req) "X-Gitea-Signature" in
                    checkSignature hook data key secret signature
              end
          end
      end
  end.

End Driver.

(** ** Vocabulary of the specification *)

(** The event kinds that the switch of [Parse] routes. *)
Definition supportedEvents : list string :=
  ["push"; "create"; "delete"; "issues"; "issue_comment"; "pull_request";
   "reviewed"].

(** The action mapper as the table the specification describes: provider
    verb, canonical action. *)
Definition actionTable : list (string * scm.Action) :=
  [("create", scm.ActionCreate); ("created", scm.ActionCreate);
   ("delete", scm.ActionDelete); ("deleted", scm.ActionDelete);
   ("update", scm.ActionUpdate); ("updated", scm.ActionUpdate);
   ("edit", scm.ActionUpdate); ("edited", scm.ActionUpdate);
   ("open", scm.ActionOpen); ("opened", scm.ActionOpen);
   ("reopen", scm.ActionReopen); ("reopened", scm.ActionReopen);
   ("close", scm.ActionClose); ("closed", scm.ActionClose);
   ("label", scm.ActionLabel); ("labeled", scm.ActionLabel);
   ("label_updated", scm.ActionLabel);
   ("unlabel", scm.ActionUnlabel); ("unlabeled", scm.ActionUnlabel);
   ("label_cleared", scm.ActionUnlabel);
   ("merge", scm.ActionMerge); ("merged", scm.ActionMerge);
   ("synchronize", scm.ActionSync); ("synchronized", scm.ActionSync);
   ("assigned", scm.ActionAssigned); ("unassigned", scm.ActionUnassigned);
   ("reviewed", scm.ActionSubmitted)].

(** [mapAction] of section 4.4: the action of the first row whose verb is
    the given one, byte for byte, and [Unknown] when there is none. *)
Fixpoint mapAction (table : list (string * scm.Action)) (verb : string)
  : scm.Action :=
  match table with
  | [] => scm.ActionUnknown
  | (v, a) :: rest => if verb =? v then a else mapAction rest verb
  end.

(** The ASCII letters of a text in lower case, and equality of two texts
    up to the case of their ASCII letters. *)
Definition lower (c : ascii) : ascii :=
  if ((65 <=? N_of_ascii c) && (N_of_ascii c <=? 90))%N
  then ascii_of_N (N_of_ascii c + 32) else c.

Fixpoint lowerString (s : string) : string :=
  match s with
  | EmptyString => EmptyString
  | String c s' => String (lower c) (lowerString s')
  end.

Definition sameUpToCase (a b : string) : bool :=
  lowerString a =? lowerString b.

(** The number of bytes of a text. *)
Definition size (s : string) : Z := Z.of_nat (String.length s).

Section Payload.

Context `{Collaborators}.



End Payload.

(** ** A reference instance of the collaborators

    A JSON reader after [encoding/json], the converters of the other
    driver files after section 3 of the specification, a keyed digest
    and the form parsing of net/http.  The closed examples below run the
    dispatcher on it; the theorems on every request hold for every
    instance and do not depend on it.

    The reader covers the texts of the examples and is narrower than
    [encoding/json] elsewhere: the two halves of a surrogate pair in
    [\u] escapes are not joined, bytes that are no UTF-8 are kept as
    they are, keys are compared up to the case of ASCII letters only, a
    time is checked for the shape of an RFC 3339 instant and not for its
    calendar, and of the structures of the gitea SDK the fields that the
    converters read are decoded. *)

Module Json.

(** A parsed JSON text.  A number keeps its literal. *)
Inductive value : Type :=
| Null
| Bool (b : bool)
| Number (literal : string)
| Str (s : string)
| Array (vs : list value)
| Object (ms : list (string * value)).

Inductive token : Type :=
| TLBrace | TRBrace | TLBracket | TRBracket | TColon | TComma
| TString (s : string)
| TNumber (literal : string)
| TTrue | TFalse | TNull.

Definition code (c : ascii) : N := N_of_ascii c.

Definition inRange (lo hi : N) (c : ascii) : bool :=
  ((lo <=? code c) && (code c <=? hi))%N.

Definition isSpace (c : ascii) : bool :=
  ((code c =? 32) || (code c =? 9) || (code c =? 10) || (code c =? 13))%N.

Definition isDigit (c : ascii) : bool := inRange 48 57 c.

(** The characters of a number or of a literal name. *)
Definition isWordChar (c : ascii) : bool :=
  isDigit c || inRange 97 122 c || inRange 65 90 c
  || ((code c =? 43) || (code c =? 45) || (code c =? 46))%N.

(** The number grammar of RFC 8259 as an automaton. *)
Inductive numState : Type :=
| NStart | NMinus | NZero | NInt | NDot | NFrac | NE | NESign | NExp | NBad.

Definition numStep (st : numState) (c : ascii) : numState :=
  let minus := (code c =? 45)%N in
  let plus := (code c =? 43)%N in
  let dot := (code c =? 46)%N in
  let zero := (code c =? 48)%N in
  let nonzero := inRange 49 57 c in
  let digit := isDigit c in
  let e := ((code c =? 101) || (code c =? 69))%N in
  match st with
  | NStart => if minus then NMinus else if zero then NZero
              else if nonzero then NInt else NBad
  | NMinus => if zero then NZero else if nonzero then NInt else NBad
  | NZero => if dot then NDot else if e then NE else NBad
  | NInt => if digit then NInt else if dot then NDot
            else if e then NE else NBad
  | NDot => if digit then NFrac else NBad
  | NFrac => if digit then NFrac else if e then NE else NBad
  | NE => if plus || minus then NESign else if digit then NExp else NBad
  | NESign => if digit then NExp else NBad
  | NExp => if digit then NExp else NBad
  | NBad => NBad
  end.

Fixpoint numRun (st : numState) (s : string) : numState :=
  match s with
  | EmptyString => st
  | String c s' => numRun (numStep st c) s'
  end.

Definition isNumber (s : string) : bool :=
  match numRun NStart s with
  | NZero | NInt | NFrac | NExp => true
  | _ => false
  end.

Definition classify (w : string) : option token :=
  if w =? "true" then Some TTrue
  else if w =? "false" then Some TFalse
  else if w =? "null" then Some TNull
  else if isNumber w then Some (TNumber w)
  else None.

Definition hexValue (c : ascii) : option N :=
  if isDigit c then Some (code c - 48)%N
  else if inRange 97 102 c then Some (code c - 87)%N
  else if inRange 65 70 c then Some (code c - 55)%N
  else None.

(** UTF-8 of a code point of the basic plane; a surrogate half becomes
    U+FFFD. *)
Definition utf8 (cp : N) : string :=
  let cp := if ((55296 <=? cp) && (cp <? 57344))%N then 65533%N else cp in
  let byte (n : N) := ascii_of_N n in
  if (cp <? 128)%N then String (byte cp) ""
  else if (cp <? 2048)%N then
    String (byte (192 + cp / 64)%N) (String (byte (128 + cp mod 64)%N) "")
  else
    String (byte (224 + cp / 4096)%N)
      (String (byte (128 + (cp / 64) mod 64)%N)
         (String (byte (128 + cp mod 64)%N) "")).

(** The scanner: between tokens, inside a word, inside a string, after a
    backslash, inside the four digits of a [\u] escape. *)
Inductive lexState : Type :=
| LDefault
| LWord (w : string)
| LString (s : string)
| LEscape (s : string)
| LUnicode (s : string) (digits : nat) (cp : N).

Definition snoc (s : string) (c : ascii) : string := s ++ String c "".

Definition stepDefault (c : ascii) : option (lexState * list token) :=
  if isSpace c then Some (LDefault, [])
  else if (code c =? 123)%N then Some (LDefault, [TLBrace])
  else if (code c =? 125)%N then Some (LDefault, [TRBrace])
  else if (code c =? 91)%N then Some (LDefault, [TLBracket])
  else if (code c =? 93)%N then Some (LDefault, [TRBracket])
  else if (code c =? 58)%N then Some (LDefault, [TColon])
  else if (code c =? 44)%N then Some (LDefault, [TComma])
  else if (code c =? 34)%N then Some (LString "", [])
  else if isWordChar c then Some (LWord (String c ""), [])
  else None.

Definition unescape (c : ascii) : option N :=
  let n := code c in
  if ((n =? 34) || (n =? 92) || (n =? 47))%N then Some n
  else if (n =? 98)%N then Some 8%N
  else if (n =? 102)%N then Some 12%N
  else if (n =? 110)%N then Some 10%N
  else if (n =? 114)%N then Some 13%N
  else if (n =? 116)%N then Some 9%N
  else None.

Definition step (st : lexState) (c : ascii) : option (lexState * list token) :=
  match st with
  | LDefault => stepDefault c
  | LWord w =>
      if isWordChar c then Some (LWord (snoc w c), [])
      else match classify w, stepDefault c with
           | Some t, Some (st', ts) => Some (st', t :: ts)
           | _, _ => None
           end
  | LString s =>
      if (code c =? 34)%N then Some (LDefault, [TString s])
      else if (code c =? 92)%N then Some (LEscape s, [])
      else if (code c <? 32)%N then None
      else Some (LString (snoc s c), [])
  | LEscape s =>
      if (code c =? 117)%N then Some (LUnicode s 4 0%N, [])
      else match unescape c with
           | Some n => Some (LString (snoc s (ascii_of_N n)), [])
           | None => None
           end
  | LUnicode s digits cp =>
      match hexValue c with
      | None => None
      | Some h =>
          let cp' := (16 * cp + h)%N in
          match digits with
          | 0%nat => None
          | 1%nat => Some (LString (s ++ utf8 cp'), [])
          | S d => Some (LUnicode s d cp', [])
          end
      end
  end.

Fixpoint scan (st : lexState) (s : string) : option (list token) :=
  match s with
  | EmptyString =>
      match st with
      | LDefault => Some []
      | LWord w =>
          match classify w with
          | Some t => Some [t]
          | None => None
          end
      | _ => None
      end
  | String c s' =>
      match step st c with
      | None => None
      | Some (st', ts) =>
          match scan st' s' with
          | None => None
          | Some rest => Some (ts ++ rest)
          end
      end
  end.

Fixpoint parseValue (fuel : nat) (ts : list token)
  : option (value * list token) :=
  match fuel with
  | O => None
  | S fuel' =>
      match ts with
      | TNull :: r => Some (Null, r)
      | TTrue :: r => Some (Bool true, r)
      | TFalse :: r => Some (Bool false, r)
      | TNumber n :: r => Some (Number n, r)
      | TString s :: r => Some (Str s, r)
      | TLBracket :: TRBracket :: r => Some (Array [], r)
      | TLBracket :: r =>
          match parseElements fuel' r with
          | Some (vs, r') => Some (Array vs, r')
          | None => None
          end
      | TLBrace :: TRBrace :: r => Some (Object [], r)
      | TLBrace :: r =>
          match parseMembers fuel' r with
          | Some (ms, r') => Some (Object ms, r')
          | None => None
          end
      | _ => None
      end
  end
with parseElements (fuel : nat) (ts : list token)
  : option (list value * list token) :=
  match fuel with
  | O => None
  | S fuel' =>
      match parseValue fuel' ts with
      | Some (v, TComma :: r) =>
          match parseElements fuel' r with
          | Some (vs, r') => Some (v :: vs, r')
          | None => None
          end
      | Some (v, TRBracket :: r) => Some ([v], r)
      | _ => None
      end
  end
with parseMembers (fuel : nat) (ts : list token)
  : option (list (string * value) * list token) :=
  match fuel with
  | O => None
  | S fuel' =>
      match ts with
      | TString k :: TColon :: r =>
          match parseValue fuel' r with
          | Some (v, TComma :: r') =>
              match parseMembers fuel' r' with
              | Some (ms, r'') => Some ((k, v) :: ms, r'')
              | None => None
              end
          | Some (v, TRBrace :: r') => Some ([(k, v)], r')
          | _ => None
          end
      | _ => None
      end
  end.

(** The whole text must be one value; every call of the parser takes a
    token or is followed by one that does, so twice the number of tokens
    is fuel enough. *)
Definition parse (data : string) : option value :=
  match scan LDefault data with
  | None => None
  | Some ts =>
      match parseValue (2 * length ts + 2) ts with
      | Some (v, []) => Some v
      | _ => None
      end
  end.

End Json.

(** Filling the native structures from a parsed text, after
    [encoding/json]: [null] leaves the destination as it is, a value of
    the wrong kind leaves it as it is and is reported, decoding goes on
    after such a report, and a key selects the field whose tag equals it
    up to the case of ASCII letters. *)
Module Decode.

Import Json.

Definition syntaxError : error :=
  ExternalError "encoding/json" "invalid JSON text".

Definition typeError : error :=
  ExternalError "encoding/json" "cannot unmarshal value into Go value".

Definition Decoder (T : Type) : Type := value -> T -> T * option error.

Definition orElse (e1 e2 : option error) : option error :=
  match e1 with
  | Some _ => e1
  | None => e2
  end.

Definition foldEq (a b : string) : bool := sameUpToCase a b.

(** One field: the members are taken in the order of the text and each
    member whose key selects the field is decoded into it. *)
Definition field {T : Type} (ms : list (string * value)) (tag : string)
  (dec : Decoder T) (cur : T) : T * option error :=
  fold_left
    (fun st m =>
       if foldEq (fst m) tag then
         let (x, e) := dec (snd m) (fst st) in (x, orElse (snd st) e)
       else st)
    ms (cur, None).

Definition decString : Decoder string :=
  fun v cur =>
    match v with
    | Null => (cur, None)
    | Str s => (s, None)
    | _ => (cur, Some typeError)
    end.

Definition decBool : Decoder bool :=
  fun v cur =>
    match v with
    | Null => (cur, None)
    | Bool b => (b, None)
    | _ => (cur, Some typeError)
    end.

Fixpoint digitsValue (acc : Z) (s : string) : option Z :=
  match s with
  | EmptyString => Some acc
  | String c s' =>
      if isDigit c then digitsValue (10 * acc + Z.of_N (code c - 48)) s'
      else None
  end.

(** An integer literal in the range of a 64-bit [int]. *)
Definition intOfLiteral (lit : string) : option Z :=
  let r :=
    match lit with
    | String c rest =>
        if (code c =? 45)%N then option_map Z.opp (digitsValue 0 rest)
        else digitsValue 0 lit
    | EmptyString => None
    end in
  match r with
  | Some z =>
      if ((- 2 ^ 63 <=? z) && (z <? 2 ^ 63))%Z then Some z else None
  | None => None
  end.

Definition decInt : Decoder Z :=
  fun v cur =>
    match v with
    | Null => (cur, None)
    | Number lit =>
        match intOfLiteral lit with
        | Some z => (z, None)
        | None => (cur, Some typeError)
        end
    | _ => (cur, Some typeError)
    end.

(** [pat] matched at the head of [s], a [d] of the pattern standing for
    a digit: the rest of [s]. *)
Fixpoint matchPrefix (pat s : string) : option string :=
  match pat, s with
  | EmptyString, _ => Some s
  | String _ _, EmptyString => None
  | String p pat', String c s' =>
      if (if (code p =? 100)%N then isDigit c else (code p =? code c)%N)
      then matchPrefix pat' s'
      else None
  end.

Fixpoint dropDigits (s : string) : string :=
  match s with
  | String c s' => if isDigit c then dropDigits s' else s
  | EmptyString => s
  end.

(** The shape of an RFC 3339 instant. *)
Definition isRFC3339 (s : string) : bool :=
  match matchPrefix "dddd-dd-ddTdd:dd:dd" s with
  | None => false
  | Some rest =>
      let zone :=
        match matchPrefix ".d" rest with
        | Some r => dropDigits r
        | None => rest
        end in
      (zone =? "Z")
      || match matchPrefix "+dd:dd" zone, matchPrefix "-dd:dd" zone with
         | Some "", _ | _, Some "" => true
         | _, _ => false
         end
  end.

Definition decTime : Decoder scm.Time :=
  fun v cur =>
    match v with
    | Null => (cur, None)
    | Str s => if isRFC3339 s then (s, None) else (cur, Some typeError)
    | _ => (cur, Some typeError)
    end.

(** A slice: every element is decoded into a fresh value. *)
Definition decSlice {T : Type} (zero : T) (dec : Decoder T)
  : Decoder (list T) :=
  fun v cur =>
    match v with
    | Null => ([], None)
    | Array vs =>
        fold_right
          (fun x acc =>
             let (y, e) := dec x zero in (y :: fst acc, orElse e (snd acc)))
          ([], None) vs
    | _ => (cur, Some typeError)
    end.

(** A pointer: [null] clears it, any other value is decoded into the
    pointee, allocated when the pointer is nil. *)
Definition decPointer {T : Type} (zero : T) (dec : Decoder T)
  : Decoder (option T) :=
  fun v cur =>
    match v with
    | Null => (None, None)
    | _ =>
        let (x, e) :=
          dec v (match cur with Some c => c | None => zero end) in
        (Some x, e)
    end.

Definition decUser : Decoder sdk.User :=
  fun v cur =>
    match v with
    | Null => (cur, None)
    | Object ms =>
        let (a, e1) := field ms "login" decString (sdk.User_UserName cur) in
        let (b, e2) := field ms "full_name" decString (sdk.User_FullName cur) in
        let (c, e3) := field ms "email" decString (sdk.User_Email cur) in
        let (d, e4) :=
          field ms "avatar_url" decString (sdk.User_AvatarURL cur) in
        (sdk.mkUser a b c d, orElse e1 (orElse e2 (orElse e3 e4)))
    | _ => (cur, Some typeError)
    end.

Definition decRepository : Decoder sdk.Repository :=
  fun v cur =>
    match v with
    | Null => (cur, None)
    | Object ms =>
        let (a, e1) := field ms "owner" decUser (sdk.Repository_Owner cur) in
        let (b, e2) := field ms "name" decString (sdk.Repository_Name cur) in
        let (c, e3) :=
          field ms "default_branch" decString
            (sdk.Repository_DefaultBranch cur) in
        let (d, e4) :=
          field ms "clone_url" decString (sdk.Repository_CloneURL cur) in
        let (f, e5) :=
          field ms "ssh_url" decString (sdk.Repository_SSHURL cur) in
        (sdk.mkRepository a b c d f,
         orElse e1 (orElse e2 (orElse e3 (orElse e4 e5))))
    | _ => (cur, Some typeError)
    end.

Definition decPullRequestMeta : Decoder sdk.PullRequestMeta :=
  fun v cur =>
    match v with
    | Null => (cur, None)
    | Object ms =>
        let (a, e1) :=
          field ms "merged" decBool (sdk.PullRequestMeta_HasMerged cur) in
        (sdk.mkPullRequestMeta a, e1)
    | _ => (cur, Some typeError)
    end.

Definition decIssue : Decoder sdk.Issue :=
  fun v cur =>
    match v with
    | Null => (cur, None)
    | Object ms =>
        let (a, e1) := field ms "number" decInt (sdk.Issue_Index cur) in
        let (b, e2) := field ms "title" decString (sdk.Issue_Title cur) in
        let (c, e3) := field ms "body" decString (sdk.Issue_Body cur) in
        let (d, e4) := field ms "user" decUser (sdk.Issue_Poster cur) in
        let (f, e5) :=
          field ms "pull_request"
            (decPointer (sdk.mkPullRequestMeta false) decPullRequestMeta)
            (sdk.Issue_PullRequest cur) in
        (sdk.mkIssue a b c d f,
         orElse e1 (orElse e2 (orElse e3 (orElse e4 e5))))
    | _ => (cur, Some typeError)
    end.

Definition decComment : Decoder sdk.Comment :=
  fun v cur =>
    match v with
    | Null => (cur, None)
    | Object ms =>
        let (a, e1) := field ms "id" decInt (sdk.Comment_ID cur) in
        let (b, e2) := field ms "body" decString (sdk.Comment_Body cur) in
        let (c, e3) := field ms "user" decUser (sdk.Comment_Poster cur) in
        (sdk.mkComment a b c, orElse e1 (orElse e2 e3))
    | _ => (cur, Some typeError)
    end.

Definition decPullRequest : Decoder sdk.PullRequest :=
  fun v cur =>
    match v with
    | Null => (cur, None)
    | Object ms =>
        let (a, e1) := field ms "number" decInt (sdk.PullRequest_Index cur) in
        let (b, e2) :=
          field ms "title" decString (sdk.PullRequest_Title cur) in
        let (c, e3) := field ms "body" decString (sdk.PullRequest_Body cur) in
        let (d, e4) := field ms "user" decUser (sdk.PullRequest_Poster cur) in
        (sdk.mkPullRequest a b c d, orElse e1 (orElse e2 (orElse e3 e4)))
    | _ => (cur, Some typeError)
    end.

Definition decSignature : Decoder signature :=
  fun v cur =>
    match v with
    | Null => (cur, None)
    | Object ms =>
        let (a, e1) := field ms "name" decString (signature_Name cur) in
        let (b, e2) := field ms "email" decString (signature_Email cur) in
        let (c, e3) :=
          field ms "username" decString (signature_Username cur) in
        (mksignature a b c, orElse e1 (orElse e2 e3))
    | _ => (cur, Some typeError)
    end.

Definition zeroSignature : signature := mksignature "" "" "".
Definition zeroCommit : commit := mkcommit "" zeroSignature zeroSignature "".

Definition decCommit : Decoder commit :=
  fun v cur =>
    match v with
    | Null => (cur, None)
    | Object ms =>
        let (a, e1) := field ms "message" decString (commit_Message cur) in
        let (b, e2) := field ms "author" decSignature (commit_Author cur) in
        let (c, e3) :=
          field ms "committer" decSignature (commit_Committer cur) in
        let (d, e4) := field ms "timestamp" decTime (commit_Timestamp cur) in
        (mkcommit a b c d, orElse e1 (orElse e2 (orElse e3 e4)))
    | _ => (cur, Some typeError)
    end.

Definition decPushHook : Decoder pushHook :=
  fun v cur =>
    match v with
    | Null => (cur, None)
    | Object ms =>
        let (a, e1) := field ms "secret" decString (pushHook_Secret cur) in
        let (b, e2) := field ms "ref" decString (pushHook_Ref cur) in
        let (c, e3) := field ms "before" decString (pushHook_Before cur) in
        let (d, e4) := field ms "after" decString (pushHook_After cur) in
        let (f, e5) :=
          field ms "compare_url" decString (pushHook_Compare cur) in
        let (g, e6) :=
          field ms "commits" (decSlice zeroCommit decCommit)
            (pushHook_Commits cur) in
        let (h, e7) :=
          field ms "repository" decRepository (pushHook_Repository cur) in
        let (i, e8) := field ms "pusher" decUser (pushHook_Pusher cur) in
        let (j, e9) := field ms "sender" decUser (pushHook_Sender cur) in
        (mkpushHook a b c d f g h i j,
         orElse e1 (orElse e2 (orElse e3 (orElse e4 (orElse e5
           (orElse e6 (orElse e7 (orElse e8 e9))))))))
    | _ => (cur, Some typeError)
    end.

Definition decCreateHook : Decoder createHook :=
  fun v cur =>
    match v with
    | Null => (cur, None)
    | Object ms =>
        let (a, e1) := field ms "ref" decString (createHook_Ref cur) in
        let (b, e2) :=
          field ms "ref_type" decString (createHook_RefType cur) in
        let (c, e3) := field ms "sha" decString (createHook_Sha cur) in
        let (d, e4) :=
          field ms "default_branch" decString (createHook_DefaultBranch cur) in
        let (f, e5) :=
          field ms "repository" decRepository (createHook_Repository cur) in
        let (g, e6) := field ms "sender" decUser (createHook_Sender cur) in
        (mkcreateHook a b c d f g,
         orElse e1 (orElse e2 (orElse e3 (orElse e4 (orElse e5 e6)))))
    | _ => (cur, Some typeError)
    end.

Definition decIssueHook : Decoder issueHook :=
  fun v cur =>
    match v with
    | Null => (cur, None)
    | Object ms =>
        let (a, e1) := field ms "action" decString (issueHook_Action cur) in
        let (b, e2) := field ms "issue" decIssue (issueHook_Issue cur) in
        let (c, e3) := field ms "comment" decComment (issueHook_Comment cur) in
        let (d, e4) :=
          field ms "repository" decRepository (issueHook_Repository cur) in
        let (f, e5) := field ms "sender" decUser (issueHook_Sender cur) in
        (mkissueHook a b c d f,
         orElse e1 (orElse e2 (orElse e3 (orElse e4 e5))))
    | _ => (cur, Some typeError)
    end.

Definition decPullRequestHook : Decoder pullRequestHook :=
  fun v cur =>
    match v with
    | Null => (cur, None)
    | Object ms =>
        let (a, e1) :=
          field ms "action" decString (pullRequestHook_Action cur) in
        let (b, e2) := field ms "number" decInt (pullRequestHook_Number cur) in
        let (c, e3) :=
          field ms "pull_request" decPullRequest
            (pullRequestHook_PullRequest cur) in
        let (d, e4) :=
          field ms "repository" decRepository
            (pullRequestHook_Repository cur) in
        let (f, e5) := field ms "sender" decUser (pullRequestHook_Sender cur) in
        (mkpullRequestHook a b c d f,
         orElse e1 (orElse e2 (orElse e3 (orElse e4 e5))))
    | _ => (cur, Some typeError)
    end.

Definition decReviewPayload : Decoder pullRequestReviewPayload :=
  fun v cur =>
    match v with
    | Null => (cur, None)
    | Object ms =>
        let (a, e1) :=
          field ms "type" decString (pullRequestReviewPayload_Type cur) in
        let (b, e2) :=
          field ms "content" decString (pullRequestReviewPayload_Content cur) in
        (mkpullRequestReviewPayload a b, orElse e1 e2)
    | _ => (cur, Some typeError)
    end.

Definition decPullRequestReviewHook : Decoder pullRequestReviewHook :=
  fun v cur =>
    match v with
    | Null => (cur, None)
    | Object ms =>
        let (a, e1) :=
          field ms "action" decString (pullRequestReviewHook_Action cur) in
        let (b, e2) :=
          field ms "number" decInt (pullRequestReviewHook_Number cur) in
        let (c, e3) :=
          field ms "pull_request" decPullRequest
            (pullRequestReviewHook_PullRequest cur) in
        let (d, e4) :=
          field ms "repository" decRepository
            (pullRequestReviewHook_Repository cur) in
        let (f, e5) :=
          field ms "sender" decUser (pullRequestReviewHook_Sender cur) in
        let (g, e6) :=
          field ms "review" decReviewPayload
            (pullRequestReviewHook_Review cur) in
        (mkpullRequestReviewHook a b c d f g,
         orElse e1 (orElse e2 (orElse e3 (orElse e4 (orElse e5 e6)))))
    | _ => (cur, Some typeError)
    end.

(** [json.Unmarshal(data, dst)] with [dst] a fresh value: a text that
    is not valid JSON leaves [dst] untouched. *)
Definition Unmarshal {T : Type} (dec : Decoder T) (zero : T) (data : string)
  : T * option error :=
  match parse data with
  | None => (zero, Some syntaxError)
  | Some v => dec v zero
  end.

Definition zeroPushHook : pushHook :=
  mkpushHook "" "" "" "" "" [] sdk.zeroRepository sdk.zeroUser sdk.zeroUser.
Definition zeroCreateHook : createHook :=
  mkcreateHook "" "" "" "" sdk.zeroRepository sdk.zeroUser.
Definition zeroIssueHook : issueHook :=
  mkissueHook "" sdk.zeroIssue sdk.zeroComment sdk.zeroRepository sdk.zeroUser.
Definition zeroPullRequestHook : pullRequestHook :=
  mkpullRequestHook "" 0%Z sdk.zeroPullRequest sdk.zeroRepository sdk.zeroUser.
Definition zeroPullRequestReviewHook : pullRequestReviewHook :=
  mkpullRequestReviewHook "" 0%Z sdk.zeroPullRequest sdk.zeroRepository
    sdk.zeroUser (mkpullRequestReviewPayload "" "").

End Decode.

(** The helper package [pkg/hmac] with the hash the driver passes to it,
    SHA-256 (FIPS 180-4) under HMAC (RFC 2104). *)
Module Hmac.

Definition mask32 : N := 0xffffffff%N.
Definition w32 (x : N) : N := N.land x mask32.
Definition add32 (x y : N) : N := w32 (x + y).
Definition rotr (n x : N) : N :=
  N.lor (N.shiftr x n) (w32 (N.shiftl x (32 - n))).
Definition xor3 (x y z : N) : N := N.lxor (N.lxor x y) z.

Definition Ch (x y z : N) : N :=
  N.lxor (N.land x y) (N.land (N.lxor x mask32) z).
Definition Maj (x y z : N) : N :=
  xor3 (N.land x y) (N.land x z) (N.land y z).
Definition bigSigma0 (x : N) : N := xor3 (rotr 2 x) (rotr 13 x) (rotr 22 x).
Definition bigSigma1 (x : N) : N := xor3 (rotr 6 x) (rotr 11 x) (rotr 25 x).
Definition smallSigma0 (x : N) : N :=
  xor3 (rotr 7 x) (rotr 18 x) (N.shiftr x 3).
Definition smallSigma1 (x : N) : N :=
  xor3 (rotr 17 x) (rotr 19 x) (N.shiftr x 10).

(** The first sixty-four primes. *)
Definition primes : list N :=
  [2; 3; 5; 7; 11; 13; 17; 19; 23; 29; 31; 37; 41; 43; 47; 53; 59; 61; 67;
   71; 73; 79; 83; 89; 97; 101; 103; 107; 109; 113; 127; 131; 137; 139; 149;
   151; 157; 163; 167; 173; 179; 181; 191; 193; 197; 199; 211; 223; 227; 229;
   233; 239; 241; 251; 257; 263; 269; 271; 277; 281; 283; 293; 307; 311]%N.

(** The integer cube root, one bit at a time from bit [bits - 1] down. *)
Fixpoint cubeRoot (bits : nat) (n r : N) : N :=
  match bits with
  | O => r
  | S b =>
      let r' := (r + N.shiftl 1 (N.of_nat b))%N in
      cubeRoot b n (if (r' * r' * r' <=? n)%N then r' else r)
  end.

(** The round constants: the first thirty-two bits of the fractional
    parts of the cube roots of the primes. *)
Definition K : list N :=
  Eval vm_compute in
    map (fun p => w32 (cubeRoot 36 (N.shiftl p 96) 0)) primes.

(** The initial hash value: the same of the square roots of the first
    eight primes. *)
Definition H0 : list N :=
  Eval vm_compute in
    map (fun p => w32 (N.sqrt (N.shiftl p 64))) (firstn 8 primes).

(** The message schedule, newest word first: [n] more words after the
    sixteen of the block. *)
Fixpoint extend (n : nat) (rev_w : list N) : list N :=
  match n with
  | O => rev_w
  | S n' =>
      let w :=
        add32 (add32 (smallSigma1 (nth 1 rev_w 0%N)) (nth 6 rev_w 0%N))
              (add32 (smallSigma0 (nth 14 rev_w 0%N)) (nth 15 rev_w 0%N)) in
      extend n' (w :: rev_w)
  end.

Definition round (st : list N) (kw : N * N) : list N :=
  match st with
  | [a; b; c; d; e; f; g; h] =>
      let t1 :=
        add32 (add32 (add32 h (bigSigma1 e)) (Ch e f g))
              (add32 (fst kw) (snd kw)) in
      let t2 := add32 (bigSigma0 a) (Maj a b c) in
      [add32 t1 t2; a; b; c; add32 d t1; e; f; g]
  | _ => st
  end.

(** Big-endian words of a byte sequence, four bytes a word. *)
Fixpoint words (bs : list N) : list N :=
  match bs with
  | b0 :: b1 :: b2 :: b3 :: rest =>
      (b0 * 16777216 + b1 * 65536 + b2 * 256 + b3)%N :: words rest
  | _ => []
  end.

Definition compress (st : list N) (block : list N) : list N :=
  let w := rev (extend 48 (rev (words block))) in
  map (fun p => add32 (fst p) (snd p))
      (combine st (fold_left round (combine K w) st)).

Fixpoint blocks (fuel : nat) (st : list N) (bs : list N) : list N :=
  match fuel with
  | O => st
  | S fuel' =>
      match bs with
      | [] => st
      | _ => blocks fuel' (compress st (firstn 64 bs)) (skipn 64 bs)
      end
  end.

Definition bigEndian (width : nat) (x : N) : list N :=
  map (fun i => N.land (N.shiftr x (8 * N.of_nat i)) 255)
      (rev (seq 0 width)).

Definition pad (bs : list N) : list N :=
  let len := N.of_nat (length bs) in
  let zeros := N.to_nat ((119 - len mod 64) mod 64) in
  bs ++ [128%N] ++ repeat 0%N zeros ++ bigEndian 8 (8 * len).

Definition sha256 (bs : list N) : list N :=
  let padded := pad bs in
  flat_map (bigEndian 4) (blocks (length padded) H0 padded).

Definition hmac (key msg : list N) : list N :=
  let key := if (64 <? length key)%nat then sha256 key else key in
  let key := key ++ repeat 0%N (64 - length key) in
  let ipad := map (N.lxor 0x36%N) key in
  let opad := map (N.lxor 0x5c%N) key in
  sha256 (opad ++ sha256 (ipad ++ msg)).

Fixpoint bytes (s : string) : list N :=
  match s with
  | EmptyString => []
  | String c s' => N_of_ascii c :: bytes s'
  end.

(** [hex.DecodeString]. *)
Fixpoint decodeHex (s : string) : option (list N) :=
  match s with
  | EmptyString => Some []
  | String _ EmptyString => None
  | String hi (String lo s') =>
      match Json.hexValue hi, Json.hexValue lo, decodeHex s' with
      | Some h, Some l, Some rest => Some ((16 * h + l)%N :: rest)
      | _, _, _ => None
      end
  end.

Fixpoint eqBytes (a b : list N) : bool :=
  match a, b with
  | [], [] => true
  | x :: a', y :: b' => (x =? y)%N && eqBytes a' b'
  | _, _ => false
  end.

(** Modelled from the spec: the signature verifier of section 4.5, a
    keyed digest of the raw bytes compared with the provided signature;
    the driver asks for SHA-256 and gitea sends the digest in hexadecimal,
    so a signature that is not hexadecimal is a mismatch. *)
Definition Validate (message key signature : string) : bool :=
  match decodeHex signature with
  | None => false
  | Some decoded => eqBytes (hmac (bytes key) (bytes message)) decoded
  end.

End Hmac.

(** The converters of the other driver files. *)
Module Convert.

(** Modelled from the spec: the user snapshot holds login, display name,
    email and avatar URL of the payload's user object. *)
Definition convertUser (src : sdk.User) : scm.User :=
  {| scm.User_Login := sdk.User_UserName src;
     scm.User_Name := sdk.User_FullName src;
     scm.User_Email := sdk.User_Email src;
     scm.User_Avatar := sdk.User_AvatarURL src |}.

(** Modelled from the spec: the repository snapshot holds namespace,
    name, default branch and clone URLs of the payload's repository
    object. *)
Definition convertRepository (src : sdk.Repository) : scm.Repository :=
  {| scm.Repository_Namespace := sdk.User_UserName (sdk.Repository_Owner src);
     scm.Repository_Name := sdk.Repository_Name src;
     scm.Repository_Branch := sdk.Repository_DefaultBranch src;
     scm.Repository_Clone := sdk.Repository_CloneURL src;
     scm.Repository_CloneSSH := sdk.Repository_SSHURL src |}.

(** Modelled from the spec: the canonical issue of the issue variants. *)
Definition convertIssue (src : sdk.Issue) : scm.Issue :=
  {| scm.Issue_Number := sdk.Issue_Index src;
     scm.Issue_Title := sdk.Issue_Title src;
     scm.Issue_Body := sdk.Issue_Body src;
     scm.Issue_Author := convertUser (sdk.Issue_Poster src) |}.

(** Modelled from the spec: the canonical comment of the comment
    variants. *)
Definition convertIssueComment (src : sdk.Comment) : scm.Comment :=
  {| scm.Comment_ID := sdk.Comment_ID src;
     scm.Comment_Body := sdk.Comment_Body src;
     scm.Comment_Author := convertUser (sdk.Comment_Poster src) |}.

(** Modelled from the spec: the canonical pull request of the pull
    request variants. *)
Definition convertPullRequest (src : sdk.PullRequest) : scm.PullRequest :=
  {| scm.PullRequest_Number := sdk.PullRequest_Index src;
     scm.PullRequest_Title := sdk.PullRequest_Title src;
     scm.PullRequest_Body := sdk.PullRequest_Body src;
     scm.PullRequest_Author := convertUser (sdk.PullRequest_Poster src) |}.

(** Modelled from the spec: the canonical pull request of a comment that
    arrives on an issue-shaped resource. *)
Definition convertPullRequestFromIssue (src : sdk.Issue) : scm.PullRequest :=
  {| scm.PullRequest_Number := sdk.Issue_Index src;
     scm.PullRequest_Title := sdk.Issue_Title src;
     scm.PullRequest_Body := sdk.Issue_Body src;
     scm.PullRequest_Author := convertUser (sdk.Issue_Poster src) |}.

End Convert.

(** The form parsing of net/http: [url.ParseQuery] as it is since Go
    1.17 (pairs are separated by the ampersand and a pair with a
    semicolon is dropped) and the media type of [mime.ParseMediaType];
    a multipart body is outside this instance, which finds no values in
    it. *)
Module Http.

(** [url.QueryUnescape]: percent escapes and the plus sign. *)
Fixpoint unescape (s : string) : option string :=
  match s with
  | EmptyString => Some EmptyString
  | String c s' =>
      if (N_of_ascii c =? 37)%N then
        match s' with
        | String h (String l rest) =>
            match Json.hexValue h, Json.hexValue l, unescape rest with
            | Some x, Some y, Some r =>
                Some (String (ascii_of_N (16 * x + y)) r)
            | _, _, _ => None
            end
        | _ => None
        end
      else
        match unescape s' with
        | Some r =>
            Some (String (if (N_of_ascii c =? 43)%N then " "%char else c) r)
        | None => None
        end
  end.

(** The pieces of a text between the occurrences of a separator. *)
Fixpoint splitOn (sep : N) (s : string) : list string :=
  match s with
  | EmptyString => [EmptyString]
  | String c s' =>
      if (N_of_ascii c =? sep)%N then EmptyString :: splitOn sep s'
      else match splitOn sep s' with
           | piece :: pieces => String c piece :: pieces
           | [] => [String c EmptyString]
           end
  end.

(** [strings.Cut] at the first occurrence of a separator. *)
Fixpoint cut (sep : N) (s : string) : string * string :=
  match s with
  | EmptyString => (EmptyString, EmptyString)
  | String c s' =>
      if (N_of_ascii c =? sep)%N then (EmptyString, s')
      else let (before, after) := cut sep s' in (String c before, after)
  end.

Fixpoint hasByte (b : N) (s : string) : bool :=
  match s with
  | EmptyString => false
  | String c s' => (N_of_ascii c =? b)%N || hasByte b s'
  end.

Definition ParseQuery (query : string) : Values :=
  flat_map
    (fun pair =>
       if hasByte 59 pair || (pair =? "") then []
       else
         let (key, value) := cut 61 pair in
         match unescape key, unescape value with
         | Some k, Some v => [(k, [v])]
         | _, _ => []
         end)
    (splitOn 38 query).

Definition isTokenByte (c : ascii) : bool :=
  Json.inRange 33 126 c
  && negb (existsb (fun b => (N_of_ascii c =? b)%N)
             [40; 41; 60; 62; 64; 44; 59; 58; 92; 34; 47; 91; 93; 63; 61]%N).

Fixpoint isToken (s : string) : bool :=
  match s with
  | EmptyString => true
  | String c s' => isTokenByte c && isToken s'
  end.

Fixpoint trimLeft (s : string) : string :=
  match s with
  | String c s' => if Json.isSpace c then trimLeft s' else s
  | EmptyString => s
  end.

Fixpoint reverse (acc s : string) : string :=
  match s with
  | EmptyString => acc
  | String c s' => reverse (String c acc) s'
  end.

Definition trim (s : string) : string :=
  reverse "" (trimLeft (reverse "" (trimLeft s))).

(** The media type before the parameters, in lower case, or the empty
    text when it is not a token or two tokens around a slash; the
    parameters are not examined. *)
Definition mediaType (v : string) : string :=
  let base := trim (lowerString (fst (cut 59 v))) in
  let (kind, subkind) := cut 47 base in
  if hasByte 47 base
  then if negb (kind =? "") && isToken kind
          && negb (subkind =? "") && isToken subkind
       then base else ""
  else if negb (base =? "") && isToken base then base else "".

End Http.

#[export] Instance reference : Collaborators := {|
  Unmarshal_pushHook := Decode.Unmarshal Decode.decPushHook Decode.zeroPushHook;
  Unmarshal_createHook :=
    Decode.Unmarshal Decode.decCreateHook Decode.zeroCreateHook;
  Unmarshal_issueHook :=
    Decode.Unmarshal Decode.decIssueHook Decode.zeroIssueHook;
  Unmarshal_pullRequestHook :=
    Decode.Unmarshal Decode.decPullRequestHook Decode.zeroPullRequestHook;
  Unmarshal_pullRequestReviewHook :=
    Decode.Unmarshal Decode.decPullRequestReviewHook
      Decode.zeroPullRequestReviewHook;
  hmac_Validate := Hmac.Validate;
  convertRepository := Convert.convertRepository;
  convertUser := Convert.convertUser;
  convertIssue := Convert.convertIssue;
  convertIssueComment := Convert.convertIssueComment;
  convertPullRequest := Convert.convertPullRequest;
  convertPullRequestFromIssue := Convert.convertPullRequestFromIssue;
  mime_ParseMediaType := Http.mediaType;
  url_ParseQuery := Http.ParseQuery;
  multipart_Values := fun _ _ => [] |}.

(** ** Sample deliveries *)

Module Sample.

(** A JSON text written with apostrophes in the place of its quotation
    marks. *)
Fixpoint json (s : string) : string :=
  match s with
  | EmptyString => EmptyString
  | String c s' =>
      String (if (N_of_ascii c =? 39)%N then ascii_of_N 34 else c) (json s')
  end.

(** [n] blanks. *)
Fixpoint blanks (n : nat) : string :=
  match n with
  | O => EmptyString
  | S n' => String " " (blanks n')
  end.

(** The query text of values that need no escaping. *)
Fixpoint queryOf (form : Values) : string :=
  match form with
  | [] => ""
  | (k, v) :: rest =>
      let pair := (k ++ "=" ++ hd "" v)%string in
      match rest with
      | [] => pair
      | _ => (pair ++ "&" ++ queryOf rest)%string
      end
  end.

(** A JSON delivery as gitea posts it, with the form values in the query
    of its URL. *)
Definition delivery (event signature : string) (form : Values) (body : string)
  : Request :=
  {| Method := "POST";
     RawQuery := queryOf form;
     Header := [("Content-Type", ["application/json"]);
                ("X-Gitea-Event", [event]);
                ("X-Gitea-Signature", [signature])];
     Body := {| stream_bytes := body; stream_err := None;
                stream_eager := false |};
     Form := None |}.

(** A resolver that knows one key for every event. *)
Definition constantKey (key : string) : scm.SecretFunc :=
  fun _ => (key, None).

Definition pushBody : string :=
  json ("{'secret':'s3cr3t','ref':'refs/heads/master','after':'f3e0b1a',"
        ++ "'compare_url':'https://try.gitea.io/gitea/test/compare/a...f',"
        ++ "'commits':[{'message':'fix typo',"
        ++ "'author':{'name':'Ann','email':'ann@example.com','username':'ann'},"
        ++ "'committer':{'name':'Bob','email':'bob@example.com','username':'bob'},"
        ++ "'timestamp':'2017-12-05T18:22:32Z'}],"
        ++ "'repository':{'owner':{'login':'gitea'},'name':'test',"
        ++ "'default_branch':'master',"
        ++ "'clone_url':'https://try.gitea.io/gitea/test.git',"
        ++ "'ssh_url':'git@try.gitea.io:gitea/test.git'},"
        ++ "'pusher':{'login':'pat','full_name':'Pat','email':'pat@example.com'},"
        ++ "'sender':{'login':'pat','avatar_url':'https://try.gitea.io/avatars/1'}}").

(** The event that [pushBody] converts to. *)
Definition pushEvent : scm.Webhook :=
  scm.OfPushHook
    {| scm.PushHook_Ref := "refs/heads/master";
       scm.PushHook_Commit :=
         {| scm.Commit_Sha := "f3e0b1a";
            scm.Commit_Message := "fix typo";
            scm.Commit_Link := "https://try.gitea.io/gitea/test/compare/a...f";
            scm.Commit_Author :=
              scm.mkSignature "ann" "ann@example.com" "Ann"
                "2017-12-05T18:22:32Z";
            scm.Commit_Committer :=
              scm.mkSignature "bob" "bob@example.com" "Bob"
                "2017-12-05T18:22:32Z" |};
       scm.PushHook_Repo :=
         scm.mkRepository "gitea" "test" "master"
           "https://try.gitea.io/gitea/test.git"
           "git@try.gitea.io:gitea/test.git";
       scm.PushHook_Sender :=
         scm.mkUser "pat" "" "" "https://try.gitea.io/avatars/1" |}.

(** A push whose embedded secret is the expected key and whose header
    signature is not the digest of the body. *)
Definition forgedPush : Request :=
  delivery "push" "00ff" [] pushBody.

(** The same push signed with the key [topsecret]. *)
Definition signedPush : Request :=
  delivery "push"
    "f38578f88a3aedac23c548940c5a8ca198fbad3ce483f00f4431fc92b4e17c67"
    [] pushBody.

(** A comment on pull request 2, which arrives as an issue comment whose
    issue carries the pull_request back-reference. *)
Definition commentBody : string :=
  json ("{'action':'created',"
        ++ "'issue':{'number':2,'title':'Add CI','body':'please review',"
        ++ "'user':{'login':'ann'},'pull_request':{'merged':false}},"
        ++ "'comment':{'id':7,'body':'looks good','user':{'login':'bob'}},"
        ++ "'repository':{'owner':{'login':'gitea'},'name':'test'},"
        ++ "'sender':{'login':'bob'}}").

Definition commentEvent : scm.Webhook :=
  scm.OfPullRequestCommentHook
    {| scm.PullRequestCommentHook_Action := scm.ActionCreate;
       scm.PullRequestCommentHook_PullRequest :=
         scm.mkPullRequest 2 "Add CI" "please review"
           (scm.mkUser "ann" "" "" "");
       scm.PullRequestCommentHook_Comment :=
         scm.mkComment 7 "looks good" (scm.mkUser "bob" "" "" "");
       scm.PullRequestCommentHook_Repo :=
         scm.mkRepository "gitea" "test" "" "" "";
       scm.PullRequestCommentHook_Sender := scm.mkUser "bob" "" "" "" |}.

(** The comment delivered without a signature header and with the key
    as the value of [secret] in the query of the URL. *)
Definition formAuthenticated : Request :=
  delivery "issue_comment" "" [("secret", ["s3cr3t"])] commentBody.

(** An event kind that the driver does not route. *)
Definition forkDelivery : Request :=
  delivery "fork" "" [] (json "{'forkee':{'name':'test'}}").

(** A create event for a kind of ref that the driver does not know. *)
Definition createdRepository : Request :=
  delivery "create" "" [] (json "{'ref':'test','ref_type':'repository'}").




(** What an empty JSON object converts to as a push. *)
Definition emptyPushEvent : scm.Webhook :=
  scm.OfPushHook
    {| scm.PushHook_Ref := "";
       scm.PushHook_Commit :=
         scm.mkCommit "" "" "" (scm.mkSignature "" "" "" "")
           (scm.mkSignature "" "" "" "");
       scm.PushHook_Repo := scm.zeroRepository;
       scm.PushHook_Sender := scm.zeroUser |}.

(** A push whose body is an empty JSON object followed by [k + 3]
    blanks. *)
Definition padded (k : nat) : Request :=
  delivery "push" "" [] ("{}" ++ blanks (k + 3)).


(** A create event with an empty body. *)
Definition emptyCreate : Request := delivery "create" "" [] "".

(** A decoded push without commits, pushed by [pat]. *)
Definition pushWithoutCommits : pushHook :=
  {| pushHook_Secret := "";
     pushHook_Ref := "refs/heads/master";
     pushHook_Before := "f3e0b1a";
     pushHook_After := "f3e0b1a";
     pushHook_Compare := "";
     pushHook_Commits := [];
     pushHook_Repository := sdk.zeroRepository;
     pushHook_Pusher := sdk.mkUser "pat" "Pat" "pat@example.com" "";
     pushHook_Sender := sdk.mkUser "pat" "Pat" "pat@example.com" "" |}.

End Sample.

(** ** Package factory: choosing the webhook service of a driver *)

Module factory.

(** The webhook service that [NewWebHookService] hands out, named by the
    driver package whose constructor builds it. *)
Inductive WebhookService : Type :=
| bitbucketService
| giteaService
| githubService
| gitlabService
| gogsService
| stashService.

(** [fmt.Errorf] with one [%s] verb at the end of the format. *)
Definition Errorf (format arg : string) : error :=
  ExternalError "fmt" (format ++ arg).

Definition NewWebHookService (driver : string)
  : option WebhookService * option error :=
  let driver := if driver =? "" then "github" else driver in
  if (driver =? "bitbucket") || (driver =? "bitbucketcloud") then
    (Some bitbucketService, None)
  else if (driver =? "fake") || (driver =? "fakegit") then
    (* TODO: support fake *)
    (None, None)
  else if driver =? "gitea" then (Some giteaService, None)
  else if driver =? "github" then (Some githubService, None)
  else if driver =? "gitlab" then (Some gitlabService, None)
  else if driver =? "gogs" then (Some gogsService, None)
  else if (driver =? "stash") || (driver =? "bitbucketserver") then
    (Some stashService, None)
  else (None, Some (Errorf "Unsupported GIT_KIND value: " driver)).

(** [strings.HasPrefix u p] is [String.prefix p u]. *)
Definition ensureBBCEndpoint (u : string) : string :=
  if String.prefix "https://bitbucket.org" u
     || String.prefix "http://bitbucket.org" u
  then "https://api.bitbucket.org"
  else u.

(** The driver names that [NewWebHookService] knows. *)
Definition knownDrivers : list string :=
  ["bitbucket"; "bitbucketcloud"; "fake"; "fakegit"; "gitea"; "github";
   "gitlab"; "gogs"; "stash"; "bitbucketserver"].

End factory.

(** The review types that [convertReviewAction] maps, as a table. *)
Definition reviewActionTable : list (string * scm.Action) :=
  [("pull_request_review_approved", scm.ActionSubmitted);
   ("pull_request_review_comment", scm.ActionEdited);
   ("pull_request_review_rejected", scm.ActionDismissed)].

(** ** More sample deliveries *)

Module Fixture.

(** An issues delivery whose connection breaks after one byte. *)
Definition brokenDelivery : Request :=
  {| Method := "POST";
     RawQuery := "";
     Header := [("Content-Type", ["application/json"]);
                ("X-Gitea-Event", ["issues"])];
     Body := {| stream_bytes := "{";
                stream_err := Some (ExternalError "net/http" "unexpected EOF");
                stream_eager := false |};
     Form := None |}.

(** A resolver whose secret store cannot be reached. *)
Definition failingResolver : scm.SecretFunc :=
  fun _ => ("", Some (ExternalError "vault" "connection refused")).

(** An issues delivery whose body is cut off. *)
Definition truncatedIssue : Request :=
  Sample.delivery "issues" "" [] (Sample.json "{'action':'opened','issue':").

(** The sample push without a header signature, and with a form secret
    that is not the one the payload embeds. *)
Definition unsignedPush : Request :=
  Sample.delivery "push" "" [("secret", ["topsecret"])] Sample.pushBody.

(** The creation of a tag and of a branch, each with a commit pointer. *)
Definition tagBody : string :=
  Sample.json "{'ref':'v1.0','ref_type':'tag','sha':'f3e0b1a'}".

Definition branchBody : string :=
  Sample.json "{'ref':'feature','ref_type':'branch','sha':'f3e0b1a'}".

Definition tagCreated : Request := Sample.delivery "create" "" [] tagBody.

Definition branchDeleted : Request := Sample.delivery "delete" "" [] branchBody.

Definition someCommit (message : string) : commit :=
  {| commit_Message := message;
     commit_Author := mksignature "Ann" "ann@example.com" "ann";
     commit_Committer := mksignature "Bob" "bob@example.com" "bob";
     commit_Timestamp := "2017-12-05T18:22:32Z" |}.

(** Two decoded pushes that agree on ref, head, compare link, repository,
    sender and first commit, and differ in secret, previous head, pusher
    and later commits. *)
Definition pushOne : pushHook :=
  {| pushHook_Secret := "s3cr3t";
     pushHook_Ref := "refs/heads/master";
     pushHook_Before := "0000000";
     pushHook_After := "f3e0b1a";
     pushHook_Compare := "";
     pushHook_Commits := [someCommit "fix typo"];
     pushHook_Repository := sdk.zeroRepository;
     pushHook_Pusher := sdk.mkUser "pat" "Pat" "pat@example.com" "";
     pushHook_Sender := sdk.zeroUser |}.

Definition pushTwo : pushHook :=
  {| pushHook_Secret := "";
     pushHook_Ref := "refs/heads/master";
     pushHook_Before := "a1b2c3d";
     pushHook_After := "f3e0b1a";
     pushHook_Compare := "";
     pushHook_Commits := [someCommit "fix typo"; someCommit "add tests"];
     pushHook_Repository := sdk.zeroRepository;
     pushHook_Pusher := sdk.zeroUser;
     pushHook_Sender := sdk.zeroUser |}.




(** A push posted as a form: the empty object, [k] blanks and a tail. *)
Definition paddedForm (k : nat) (tail : string) : Request :=
  {| Method := "POST";
     RawQuery := "";
     Header := [("Content-Type", ["application/x-www-form-urlencoded"]);
                ("X-Gitea-Event", ["push"])];
     Body := {| stream_bytes := "{}" ++ Sample.blanks k ++ tail;
                stream_err := None; stream_eager := false |};
     Form := None |}.

(** What is left of such a push once its stream is read up to the tail. *)
Definition formTail (tail : string) : Request :=
  {| Method := "POST";
     RawQuery := "";
     Header := [("Content-Type", ["application/x-www-form-urlencoded"]);
                ("X-Gitea-Event", ["push"])];
     Body := {| stream_bytes := tail; stream_err := None;
                stream_eager := false |};
     Form := None |}.

End Fixture.

(** * Properties *)

(** ** Reading the body *)

Lemma readLimited_whole (s : string) (e : option error) (eager : bool) :
  forall n : Z, (size s < n)%Z -> readLimited n s e eager = (s, e).
Proof.
  unfold size.
  induction s as [|c s IH]; intros n Hn; simpl in *.
  - destruct (Z.leb_spec n 0); [lia | reflexivity].
  - destruct (Z.leb_spec n 0); [lia |].
    destruct s as [|c' s].
    + destruct eager; simpl; [reflexivity |].
      destruct (Z.leb_spec (n - 1) 0); [simpl in *; lia | reflexivity].
    + rewrite Bool.andb_false_r. rewrite IH by (simpl in *; lia).
      reflexivity.
Qed.

Lemma readLimited_fits (s : string) (eager : bool) :
  forall n : Z, (size s <= n)%Z -> readLimited n s None eager = (s, None).
Proof.
  unfold size.
  induction s as [|c s IH]; intros n Hn; simpl in *.
  - destruct (n <=? 0)%Z; reflexivity.
  - destruct (Z.leb_spec n 0); [lia |].
    destruct s as [|c' s].
    + destruct eager; simpl; [reflexivity |].
      now destruct (n - 1 <=? 0)%Z.
    + rewrite Bool.andb_false_r. rewrite IH by (simpl in *; lia).
      reflexivity.
Qed.


Lemma length_append (s t : string) :
  String.length (s ++ t) = (String.length s + String.length t)%nat.
Proof. induction s as [|c s IH]; simpl; [reflexivity | now rewrite IH]. Qed.

Lemma size_append (s t : string) : size (s ++ t) = (size s + size t)%Z.
Proof. unfold size. rewrite length_append. lia. Qed.

(** A stream longer than the limit splits at the limit: the read takes
    the part before the split and reports no error, and the part after
    it is left in the stream. *)
Lemma readLimited_cut (s : string) (e : option error) (eager : bool) :
  forall n : Z, (0 <= n < size s)%Z ->
  exists prefix rest : string,
    s = (prefix ++ rest)%string /\ size prefix = n /\ rest <> "" /\
    readLimited n s e eager = (prefix, None) /\
    dropBytes n s = rest.
Proof.
  unfold size.
  induction s as [|c s IH]; intros n Hn; simpl in *.
  - lia.
  - destruct (Z.eq_dec n 0) as [->|Hnz].
    + exists EmptyString, (String c s). repeat split. discriminate.
    + destruct (IH (n - 1)%Z) as (p & r & Hs & Hp & Hr & Hread & Hdrop);
        [lia |].
      exists (String c p), r.
      destruct (Z.leb_spec n 0); [lia |].
      destruct s as [|c' s]; [simpl in *; lia |].
      rewrite Bool.andb_false_r, Hread.
      repeat split; try assumption.
      * simpl. now rewrite <- Hs.
      * simpl. lia.
Qed.

(** A stream that ends exactly at the limit: its end is met only if the
    reader reports it with the last bytes. *)
Lemma readLimited_exact (s : string) (e : option error) (eager : bool) :
  forall n : Z, (0 < n)%Z -> size s = n ->
  readLimited n s e eager = (s, if eager then e else None).
Proof.
  unfold size.
  induction s as [|c s IH]; intros n Hpos Hn; simpl in *.
  - lia.
  - destruct (Z.leb_spec n 0); [lia |].
    destruct s as [|c' s].
    + destruct eager; simpl; [reflexivity |].
      destruct (Z.leb_spec (n - 1) 0); [reflexivity | simpl in *; lia].
    + rewrite Bool.andb_false_r.
      rewrite (IH (n - 1)%Z) by (simpl in *; lia). reflexivity.
Qed.

(** A read limited to the length of the first part of a stream returns
    that part and no error when more follows. *)
Lemma readLimited_append (p r : string) (e : option error) (eager : bool) :
  r <> "" -> readLimited (size p) (p ++ r) e eager = (p, None).
Proof.
  intros Hr. unfold size.
  induction p as [|c p IH].
  - destruct r; reflexivity.
  - cbn [append String.length readLimited].
    destruct (Z.leb_spec (Z.of_nat (S (String.length p))) 0); [lia |].
    replace (eager && match (p ++ r)%string with
                      | EmptyString => true
                      | String _ _ => false
                      end) with false
      by (destruct p; [destruct r; [contradiction |] |];
          now rewrite Bool.andb_false_r).
    replace (Z.of_nat (S (String.length p)) - 1)%Z
      with (Z.of_nat (String.length p)) by lia.
    now rewrite IH.
Qed.


Lemma dropBytes_append (p r : string) : dropBytes (size p) (p ++ r) = r.
Proof.
  unfold size.
  induction p as [|c p IH].
  - destruct r; reflexivity.
  - cbn [append String.length dropBytes].
    destruct (Z.leb_spec (Z.of_nat (S (String.length p))) 0); [lia |].
    replace (Z.of_nat (S (String.length p)) - 1)%Z
      with (Z.of_nat (String.length p)) by lia.
    exact IH.
Qed.

Section Dispatcher.

Context `{Collaborators}.

(** ** The steps of [Parse] *)

Lemma Parse_read_failed (req : Request) (fn : scm.SecretFunc)
  (data : string) (e : error) :
  ReadAll_LimitReader (Body req) bodyLimit = (data, Some e) ->
  Parse req fn = (None, Some e).
Proof. intros Hread. unfold Parse. now rewrite Hread. Qed.

Lemma Parse_unrouted (req : Request) (fn : scm.SecretFunc) (data : string) :
  ReadAll_LimitReader (Body req) bodyLimit = (data, None) ->
  route (Get (Header req) "X-Gitea-Event") data = None ->
  Parse req fn = (None, Some (UnknownWebhook (Get (Header req) "X-Gitea-Event"))).
Proof. intros Hread Hroute. unfold Parse. now rewrite Hread, Hroute. Qed.

Lemma Parse_decode_failed (req : Request) (fn : scm.SecretFunc)
  (data secret : string) (hook : option scm.Webhook) (e : error) :
  ReadAll_LimitReader (Body req) bodyLimit = (data, None) ->
  route (Get (Header req) "X-Gitea-Event") data = Some (hook, secret, Some e) ->
  Parse req fn = (None, Some e).
Proof. intros Hread Hroute. unfold Parse. now rewrite Hread, Hroute. Qed.

Lemma Parse_resolver_failed (req : Request) (fn : scm.SecretFunc)
  (data secret key : string) (hook : option scm.Webhook) (e : error) :
  ReadAll_LimitReader (Body req) bodyLimit = (data, None) ->
  route (Get (Header req) "X-Gitea-Event") data = Some (hook, secret, None) ->
  fn hook = (key, Some e) ->
  Parse req fn = (hook, Some e).
Proof.
  intros Hread Hroute Hfn. unfold Parse. now rewrite Hread, Hroute, Hfn.
Qed.

Lemma Parse_unverified (req : Request) (fn : scm.SecretFunc)
  (data secret : string) (hook : option scm.Webhook) :
  ReadAll_LimitReader (Body req) bodyLimit = (data, None) ->
  route (Get (Header req) "X-Gitea-Event") data = Some (hook, secret, None) ->
  fn hook = ("", None) ->
  Parse req fn = (hook, None).
Proof.
  intros Hread Hroute Hfn. unfold Parse. now rewrite Hread, Hroute, Hfn.
Qed.

Lemma Parse_verified (req : Request) (fn : scm.SecretFunc)
  (data secret key : string) (hook : option scm.Webhook) :
  ReadAll_LimitReader (Body req) bodyLimit = (data, None) ->
  route (Get (Header req) "X-Gitea-Event") data = Some (hook, secret, None) ->
  fn hook = (key, None) ->
  key <> "" ->
  Parse req fn =
    checkSignature hook data key
      (if secret =? "" then FormValue (afterBodyRead req) "secret" else secret)
      (Get (Header req) "X-Gitea-Signature").
Proof.
  intros Hread Hroute Hfn Hkey. unfold Parse.
  rewrite Hread, Hroute, Hfn.
  destruct (String.eqb_spec key ""); [contradiction | reflexivity].
Qed.

Lemma checkSignature_hook (hook : option scm.Webhook)
  (data key secret signature : string) :
  fst (checkSignature hook data key secret signature) = hook.
Proof.
  unfold checkSignature.
  repeat match goal with |- context [if ?b then _ else _] => destruct b end;
    reflexivity.
Qed.

(** Once the payload is decoded, [Parse] hands the event back whatever
    the resolver and the signature tests say. *)
Lemma Parse_decoded_hook (req : Request) (fn : scm.SecretFunc)
  (data secret : string) (hook : option scm.Webhook) :
  ReadAll_LimitReader (Body req) bodyLimit = (data, None) ->
  route (Get (Header req) "X-Gitea-Event") data = Some (hook, secret, None) ->
  fst (Parse req fn) = hook.
Proof.
  intros Hread Hroute. unfold Parse. rewrite Hread, Hroute.
  destruct (fn hook) as [key [e|]]; [reflexivity |].
  destruct (key =? ""); [reflexivity | apply checkSignature_hook].
Qed.

(** ** The switch on the event header *)

Ltac split_event e :=
  repeat match goal with
         | |- context [String.eqb e ?k] =>
             destruct (String.eqb_spec e k); [subst e |]
         | H : context [String.eqb e ?k] |- _ =>
             destruct (String.eqb_spec e k); [subst e |]
         end.

Lemma route_unsupported (event data : string) :
  ~ In event supportedEvents -> route event data = None.
Proof.
  intros Hout. unfold route. split_event event;
    try (exfalso; apply Hout; simpl; tauto).
  reflexivity.
Qed.

Lemma route_supported (event data : string) :
  In event supportedEvents -> route event data <> None.
Proof.
  unfold supportedEvents, route. simpl.
  unfold parsePushHook, parseCreateHook, parseDeleteHook, parseIssueHook,
    parseIssueCommentHook, parsePullRequestHook, parsePullRequestReviewHook.
  destruct (Unmarshal_pushHook data) as [d1 e1],
    (Unmarshal_createHook data) as [d2 e2],
    (Unmarshal_issueHook data) as [d3 e3],
    (Unmarshal_pullRequestHook data) as [d4 e4],
    (Unmarshal_pullRequestReviewHook data) as [d5 e5].
  intros [<-|[<-|[<-|[<-|[<-|[<-|[<-|[]]]]]]]]; simpl;
    repeat match goal with
           | |- context [if ?b then _ else _] => destruct b
           | |- context [match ?x with Some _ => _ | None => _ end] =>
               destruct x
           end; discriminate.
Qed.


(** A payload that decodes without error yields an event. *)
Lemma route_decoded_event (event data secret : string)
  (hook : option scm.Webhook) :
  route event data = Some (hook, secret, None) ->
  exists w : scm.Webhook, hook = Some w.
Proof.
  unfold route, parsePushHook, parseCreateHook, parseDeleteHook, parseIssueHook,
    parseIssueCommentHook, parsePullRequestHook, parsePullRequestReviewHook.
  intros Hroute.
  destruct (Unmarshal_pushHook data) as [d1 e1],
    (Unmarshal_createHook data) as [d2 e2],
    (Unmarshal_issueHook data) as [d3 e3],
    (Unmarshal_pullRequestHook data) as [d4 e4],
    (Unmarshal_pullRequestReviewHook data) as [d5 e5].
  repeat match type of Hroute with
         | context [if ?b then _ else _] => destruct b
         | context [match ?x with Some _ => _ | None => _ end] => destruct x
         end;
    simpl in Hroute; inversion Hroute; subst; eauto.
Qed.


(** ** Authentication *)


(** C3: when the payload decodes and the resolver returns the empty key
    and no error, Parse returns the event with a nil error; the signature
    header, the embedded secret and the form play no part, so the result
    is the same for every request with this body and event header. *)
Theorem empty_key_disables_verification (req : Request) (fn : scm.SecretFunc)
  (data secret : string) (hook : option scm.Webhook) :
  ReadAll_LimitReader (Body req) bodyLimit = (data, None) ->
  route (Get (Header req) "X-Gitea-Event") data = Some (hook, secret, None) ->
  fn hook = ("", None) ->
  exists event : scm.Webhook,
    hook = Some event /\
    Parse req fn = (Some event, None) /\
    forall req' : Request,
      Body req' = Body req ->
      Get (Header req') "X-Gitea-Event" = Get (Header req) "X-Gitea-Event" ->
      Parse req' fn = (Some event, None).
Proof.
  intros Hread Hroute Hfn.
  destruct (route_decoded_event _ _ _ _ Hroute) as [event ->].
  exists event. split; [reflexivity |]. split.
  - now apply (Parse_unverified req fn data secret).
  - intros req' Hbody Hevent.
    apply (Parse_unverified req' fn data secret).
    + now rewrite Hbody.
    + now rewrite Hevent.
    + assumption.
Qed.



(** ** Unknown discriminators *)

(** For create and delete with a ref_type that is neither tag nor branch
    the answer is UnknownWebhook, whether the payload decoded or not. *)
Lemma unknown_ref_type (req : Request) (fn : scm.SecretFunc) (data : string) :
  ReadAll_LimitReader (Body req) bodyLimit = (data, None) ->
  Get (Header req) "X-Gitea-Event" = "create"
  \/ Get (Header req) "X-Gitea-Event" = "delete" ->
  createHook_RefType (fst (Unmarshal_createHook data)) <> "tag" ->
  createHook_RefType (fst (Unmarshal_createHook data)) <> "branch" ->
  Parse req fn =
    (None,
     Some (UnknownWebhook
             (createHook_RefType (fst (Unmarshal_createHook data))))).
Proof.
  intros Hread Hevent Htag Hbranch.
  apply (Parse_decode_failed req fn data "" None _ Hread).
  unfold route, parseCreateHook, parseDeleteHook.
  destruct (Unmarshal_createHook data) as [dst err]; simpl in *.
  destruct (String.eqb_spec (createHook_RefType dst) "tag");
    [contradiction |].
  destruct (String.eqb_spec (createHook_RefType dst) "branch");
    [contradiction |].
  destruct Hevent as [-> | ->]; reflexivity.
Qed.

(** C4: an event header outside the supported set makes Parse return no
    event and UnknownWebhook with that header value; a create or delete
    payload whose ref_type is neither tag nor branch makes it return no
    event and UnknownWebhook with that ref_type. *)
Theorem unknown_discriminator_fails_closed (req : Request)
  (fn : scm.SecretFunc) (data : string) :
  ReadAll_LimitReader (Body req) bodyLimit = (data, None) ->
  (~ In (Get (Header req) "X-Gitea-Event") supportedEvents ->
   Parse req fn =
     (None, Some (UnknownWebhook (Get (Header req) "X-Gitea-Event")))) /\
  (Get (Header req) "X-Gitea-Event" = "create"
   \/ Get (Header req) "X-Gitea-Event" = "delete" ->
   createHook_RefType (fst (Unmarshal_createHook data)) <> "tag" ->
   createHook_RefType (fst (Unmarshal_createHook data)) <> "branch" ->
   Parse req fn =
     (None,
      Some (UnknownWebhook
              (createHook_RefType (fst (Unmarshal_createHook data)))))).
Proof.
  intros Hread. split.
  - intros Hout. apply (Parse_unrouted req fn data Hread).
    now apply route_unsupported.
  - now apply unknown_ref_type.
Qed.

(** ** Comments on pull requests *)

(** C8: an issue_comment payload that decodes is returned as the
    pull-request-comment variant when its issue carries a pull_request
    back-reference and as the issue-comment variant when it carries
    none. *)
Theorem issue_comment_variant (req : Request) (fn : scm.SecretFunc)
  (data : string) (dst : issueHook) :
  ReadAll_LimitReader (Body req) bodyLimit = (data, None) ->
  Get (Header req) "X-Gitea-Event" = "issue_comment" ->
  Unmarshal_issueHook data = (dst, None) ->
  fst (Parse req fn) =
    Some (match sdk.Issue_PullRequest (issueHook_Issue dst) with
          | Some _ =>
              scm.OfPullRequestCommentHook (convertPullRequestCommentHook dst)
          | None => scm.OfIssueCommentHook (convertIssueCommentHook dst)
          end).
Proof.
  intros Hread Hevent Hdst.
  apply (Parse_decoded_hook req fn data "").
  - exact Hread.
  - rewrite Hevent. unfold route, parseIssueCommentHook. simpl.
    rewrite Hdst.
    now destruct (sdk.Issue_PullRequest (issueHook_Issue dst)).
Qed.

(** ** Conversion of a push *)

(** C6: with an empty commit list the author and the committer of the
    converted push are the pusher (login, email and name) and the message
    is empty; with exactly one commit the author, the committer and the
    message are those of that commit. *)
Theorem push_commit_identity (dst : pushHook) :
  (pushHook_Commits dst = [] ->
   scm.Signature_Login
     (scm.Commit_Author (scm.PushHook_Commit (convertPushHook dst)))
   = sdk.User_UserName (pushHook_Pusher dst) /\
   scm.Signature_Login
     (scm.Commit_Committer (scm.PushHook_Commit (convertPushHook dst)))
   = sdk.User_UserName (pushHook_Pusher dst) /\
   scm.Commit_Author (scm.PushHook_Commit (convertPushHook dst))
   = scm.Commit_Committer (scm.PushHook_Commit (convertPushHook dst)) /\
   scm.Commit_Message (scm.PushHook_Commit (convertPushHook dst)) = "") /\
  (forall c : commit,
     pushHook_Commits dst = [c] ->
     scm.Commit_Author (scm.PushHook_Commit (convertPushHook dst))
     = {| scm.Signature_Login := signature_Username (commit_Author c);
          scm.Signature_Email := signature_Email (commit_Author c);
          scm.Signature_Name := signature_Name (commit_Author c);
          scm.Signature_Date := commit_Timestamp c |} /\
     scm.Commit_Committer (scm.PushHook_Commit (convertPushHook dst))
     = {| scm.Signature_Login := signature_Username (commit_Committer c);
          scm.Signature_Email := signature_Email (commit_Committer c);
          scm.Signature_Name := signature_Name (commit_Committer c);
          scm.Signature_Date := commit_Timestamp c |} /\
     scm.Commit_Message (scm.PushHook_Commit (convertPushHook dst))
     = commit_Message c).
Proof.
  unfold convertPushHook. split.
  - intros ->. simpl. repeat split.
  - intros c ->. simpl. repeat split.
Qed.

(** ** The snapshots of an event *)

(** An event comes out of [Parse] only after the body was read and the
    routed decoder reported no error. *)
Lemma Parse_event_inversion (req : Request) (fn : scm.SecretFunc)
  (event : scm.Webhook) (err : option error) :
  Parse req fn = (Some event, err) ->
  exists data secret : string,
    ReadAll_LimitReader (Body req) bodyLimit = (data, None) /\
    route (Get (Header req) "X-Gitea-Event") data
    = Some (Some event, secret, None).
Proof.
  unfold Parse. intros HParse.
  destruct (ReadAll_LimitReader (Body req) bodyLimit) as [data [e|]]
    eqn:Hread; [discriminate |].
  destruct (route (Get (Header req) "X-Gitea-Event") data)
    as [[[hook secret] [e|]]|] eqn:Hroute; try discriminate.
  exists data, secret. split; [reflexivity |].
  rewrite Hroute.
  assert (Hhook : hook = Some event).
  { destruct (fn hook) as [key [e|]].
    - now inversion HParse.
    - destruct (key =? "").
      + now inversion HParse.
      + rewrite <- (checkSignature_hook hook data key
                      (if secret =? ""
                       then FormValue (afterBodyRead req) "secret"
                       else secret)
                      (Get (Header req) "X-Gitea-Signature")).
        now rewrite HParse. }
  now rewrite Hhook.
Qed.



(** ** The body limit *)



Lemma append_empty (s : string) : (s ++ "")%string = s.
Proof. induction s as [|c s IH]; simpl; [reflexivity | now rewrite IH]. Qed.


(** ** Decoding errors *)

(** X3: a decoding error of the routed payload is what Parse returns,
    with no event and without asking the resolver, for push, issues,
    issue_comment, pull_request and reviewed, and for create and delete
    when the ref_type that was decoded is tag or branch. *)
Lemma decode_error_surfaces (req : Request) (fn : scm.SecretFunc)
  (data : string) :
  ReadAll_LimitReader (Body req) bodyLimit = (data, None) ->
  forall e : error,
    (Get (Header req) "X-Gitea-Event" = "push" /\
     snd (Unmarshal_pushHook data) = Some e)
    \/ ((Get (Header req) "X-Gitea-Event" = "issues"
         \/ Get (Header req) "X-Gitea-Event" = "issue_comment") /\
        snd (Unmarshal_issueHook data) = Some e)
    \/ (Get (Header req) "X-Gitea-Event" = "pull_request" /\
        snd (Unmarshal_pullRequestHook data) = Some e)
    \/ (Get (Header req) "X-Gitea-Event" = "reviewed" /\
        snd (Unmarshal_pullRequestReviewHook data) = Some e)
    \/ ((Get (Header req) "X-Gitea-Event" = "create"
         \/ Get (Header req) "X-Gitea-Event" = "delete") /\
        snd (Unmarshal_createHook data) = Some e /\
        (createHook_RefType (fst (Unmarshal_createHook data)) = "tag"
         \/ createHook_RefType (fst (Unmarshal_createHook data)) = "branch")) ->
    Parse req fn = (None, Some e).
Proof.
  intros Hread e Hcase.
  assert (Hroute : exists hook secret,
             route (Get (Header req) "X-Gitea-Event") data
             = Some (hook, secret, Some e)).
  { unfold route, parsePushHook, parseCreateHook, parseDeleteHook,
      parseIssueHook, parseIssueCommentHook, parsePullRequestHook,
      parsePullRequestReviewHook.
    destruct (Unmarshal_pushHook data) as [d1 e1],
      (Unmarshal_createHook data) as [d2 e2],
      (Unmarshal_issueHook data) as [d3 e3],
      (Unmarshal_pullRequestHook data) as [d4 e4],
      (Unmarshal_pullRequestReviewHook data) as [d5 e5].
    simpl in Hcase.
    destruct Hcase as [[-> ->]|[[[->| ->] ->]|[[-> ->]|[[-> ->]|
                       [[-> | ->] [-> [Href|Href]]]]]]];
      simpl; try rewrite Href; simpl;
      try destruct (sdk.Issue_PullRequest (issueHook_Issue d3));
      eauto. }
  destruct Hroute as (hook & secret & Hroute).
  exact (Parse_decode_failed req fn data secret hook e Hread Hroute).
Qed.

End Dispatcher.

(** ** The action mapper *)

Lemma mapAction_absent (table : list (string * scm.Action)) (verb : string) :
  ~ In verb (map fst table) -> mapAction table verb = scm.ActionUnknown.
Proof.
  induction table as [|[v a] rest IH]; simpl; intros Hout.
  - reflexivity.
  - destruct (String.eqb_spec verb v) as [->|_].
    + exfalso. apply Hout. now left.
    + apply IH. intros Hin. apply Hout. now right.
Qed.

(** The switch of [convertAction] and the table agree on every verb. *)
Lemma convertAction_mapAction (src : string) :
  convertAction src = mapAction actionTable src.
Proof.
  unfold convertAction, actionTable, mapAction.
  repeat match goal with
         | |- context [String.eqb src ?k] =>
             destruct (String.eqb src k); simpl; try reflexivity
         end.
Qed.

Lemma mapped_verb_listed (src : string) :
  convertAction src <> scm.ActionUnknown -> In src (map fst actionTable).
Proof.
  intros Hmapped.
  destruct (in_dec string_dec src (map fst actionTable)) as [Hin|Hout];
    [exact Hin |].
  exfalso. apply Hmapped.
  rewrite convertAction_mapAction. now apply mapAction_absent.
Qed.

Lemma listed_verb_lowercase (verb : string) :
  In verb (map fst actionTable) -> lowerString verb = verb.
Proof.
  simpl. intros Hin.
  repeat match type of Hin with
         | _ \/ _ => destruct Hin as [<-|Hin]; [reflexivity |]
         end.
  contradiction.
Qed.

(** C9: convertAction is a function of the verb alone that agrees with the
    table on every string, so it is total and returns no error; close and
    closed both give Close; a verb outside the table, such as archived,
    gives Unknown; and a string that differs from a mapped verb only in
    the case of its letters gives Unknown. *)
Theorem convertAction_table :
  (forall src : string, convertAction src = mapAction actionTable src) /\
  (convertAction "close" = scm.ActionClose /\
   convertAction "closed" = scm.ActionClose /\ "close" <> "closed") /\
  (forall src : string,
     ~ In src (map fst actionTable) -> convertAction src = scm.ActionUnknown) /\
  convertAction "archived" = scm.ActionUnknown /\
  (forall a b : string,
     convertAction a <> scm.ActionUnknown ->
     sameUpToCase a b = true -> a <> b ->
     convertAction b = scm.ActionUnknown).
Proof.
  split; [exact convertAction_mapAction |].
  split; [repeat split; discriminate |].
  split.
  { intros src Hout. rewrite convertAction_mapAction.
    now apply mapAction_absent. }
  split; [reflexivity |].
  intros a b Ha Hfold Hab.
  destruct (in_dec string_dec b (map fst actionTable)) as [Hin|Hout].
  - exfalso. apply Hab.
    apply String.eqb_eq in Hfold.
    rewrite (listed_verb_lowercase a (mapped_verb_listed a Ha)) in Hfold.
    now rewrite (listed_verb_lowercase b Hin) in Hfold.
  - rewrite convertAction_mapAction. now apply mapAction_absent.
Qed.

(** ** The sample deliveries through the reference instance *)

(** The signed push is accepted under the key it was signed with. *)
Example signed_push_accepted :
  Parse Sample.signedPush (Sample.constantKey "topsecret")
  = (Some Sample.pushEvent, None).
Proof. vm_compute. reflexivity. Qed.


(** The same push under a resolver that knows no key. *)
Lemma empty_key_disables_verification_witness :
  Parse Sample.forgedPush (Sample.constantKey "")
  = (Some Sample.pushEvent, None).
Proof.
  destruct (empty_key_disables_verification Sample.forgedPush
              (Sample.constantKey "") Sample.pushBody "s3cr3t"
              (Some Sample.pushEvent))
    as (event & Hevent & HParse & _).
  - vm_compute. reflexivity.
  - vm_compute. reflexivity.
  - reflexivity.
  - injection Hevent as <-. exact HParse.
Defined.



(** The two unknown discriminators. *)
Lemma unknown_discriminator_fails_closed_witness :
  Parse Sample.forkDelivery (Sample.constantKey "")
  = (None, Some (UnknownWebhook "fork")).
Proof.
  destruct (unknown_discriminator_fails_closed Sample.forkDelivery
              (Sample.constantKey "")
              (stream_bytes (Body Sample.forkDelivery)))
    as (Hkind & _).
  - vm_compute. reflexivity.
  - apply Hkind. vm_compute. intuition discriminate.
Defined.

Example unknown_ref_type_refused :
  Parse Sample.createdRepository (Sample.constantKey "")
  = (None, Some (UnknownWebhook "repository")).
Proof. vm_compute. reflexivity. Qed.

(** The comment on a pull request comes back as a pull request comment. *)
Lemma issue_comment_variant_witness :
  fst (Parse Sample.formAuthenticated (Sample.constantKey "s3cr3t"))
  = Some Sample.commentEvent.
Proof.
  rewrite (issue_comment_variant Sample.formAuthenticated
             (Sample.constantKey "s3cr3t") Sample.commentBody
             (fst (Unmarshal_issueHook Sample.commentBody))).
  - vm_compute. reflexivity.
  - vm_compute. reflexivity.
  - reflexivity.
  - vm_compute. reflexivity.
Defined.



(** ** A body past the limit *)

Lemma blanks_size (n : nat) : size (Sample.blanks n) = Z.of_nat n.
Proof.
  unfold size. induction n as [|n IH]; simpl String.length;
    [reflexivity | lia].
Qed.

Lemma scan_blanks (n : nat) :
  Json.scan Json.LDefault (Sample.blanks n) = Some [].
Proof. induction n as [|n IH]; simpl; [reflexivity | now rewrite IH]. Qed.

(** Blanks after the value are no part of it. *)
Lemma parse_padded_object (n : nat) :
  Json.parse ("{}" ++ Sample.blanks n) = Some (Json.Object []).
Proof. unfold Json.parse. simpl. rewrite scan_blanks. reflexivity. Qed.



Lemma route_padded_push (k : nat) :
  route "push" ("{}" ++ Sample.blanks k)
  = Some (Some Sample.emptyPushEvent, "", None).
Proof.
  unfold route, parsePushHook. cbn [String.eqb Ascii.eqb Bool.eqb].
  cbn [Unmarshal_pushHook reference]. unfold Decode.Unmarshal.
  rewrite parse_padded_object. reflexivity.
Qed.





(** *** Bytes past the limit that reach the form *)

Lemma paddedForm_read (k : nat) (tail : string) :
  tail <> "" ->
  (2 + Z.of_nat k)%Z = bodyLimit ->
  ReadAll_LimitReader (Body (Fixture.paddedForm k tail)) bodyLimit
  = (("{}" ++ Sample.blanks k)%string, None) /\
  afterBodyRead (Fixture.paddedForm k tail) = Fixture.formTail tail.
Proof.
  intros Htail Hk.
  assert (Hsize : size ("{}" ++ Sample.blanks k) = bodyLimit)
    by (rewrite size_append, blanks_size; exact Hk).
  unfold afterBodyRead, withBody, unread, ReadAll_LimitReader,
    Fixture.paddedForm, Fixture.formTail.
  cbn [Method RawQuery Header Body Form stream_bytes stream_err stream_eager].
  change ("{}" ++ Sample.blanks k ++ tail)%string
    with (("{}" ++ Sample.blanks k) ++ tail)%string.
  rewrite <- Hsize. split.
  - now apply readLimited_append.
  - now rewrite dropBytes_append.
Qed.

Lemma paddedForm_Parse (k : nat) (tail key : string) :
  tail <> "" ->
  (2 + Z.of_nat k)%Z = bodyLimit ->
  key <> "" ->
  Parse (Fixture.paddedForm k tail) (Sample.constantKey key)
  = checkSignature (Some Sample.emptyPushEvent)
      ("{}" ++ Sample.blanks k) key
      (FormValue (Fixture.formTail tail) "secret") "".
Proof.
  intros Htail Hk Hkey.
  destruct (paddedForm_read k tail Htail Hk) as (Hread & Hleft).
  rewrite (Parse_verified (Fixture.paddedForm k tail) (Sample.constantKey key)
             ("{}" ++ Sample.blanks k) "" key (Some Sample.emptyPushEvent)).
  - now rewrite Hleft.
  - exact Hread.
  - apply route_padded_push.
  - reflexivity.
  - exact Hkey.
Qed.

(** Two pushes posted as forms with the same first 10,000,000 bytes and
    no header signature: the bytes after them are not part of what is
    decoded, and yet they decide the answer, since the form value is
    parsed from them. *)
Example bytes_past_limit_reach_form :
  Parse (Fixture.paddedForm (N.to_nat 9999998) "&secret=s3cr3t")
    (Sample.constantKey "s3cr3t")
  = (Some Sample.emptyPushEvent, None) /\
  Parse (Fixture.paddedForm (N.to_nat 9999998) "&secret=other")
    (Sample.constantKey "s3cr3t")
  = (Some Sample.emptyPushEvent, Some ErrSignatureInvalid).
Proof.
  assert (Hk : (2 + Z.of_nat (N.to_nat 9999998))%Z = bodyLimit)
    by (rewrite N_nat_Z; reflexivity).
  split; rewrite paddedForm_Parse by (exact Hk || discriminate);
    reflexivity.
Qed.

(** ** A decoding error that does not surface *)

(** C7 at its failing input: a create event with an empty body.  The
    decoder reports the text as invalid and leaves the destination
    empty; Parse answers UnknownWebhook for the empty ref_type and the
    decoding error is lost.  The same body under issues surfaces it. *)
Lemma empty_create_masks_decode_error :
  Unmarshal_createHook "" = (Decode.zeroCreateHook, Some Decode.syntaxError) /\
  Parse Sample.emptyCreate (Sample.constantKey "")
  = (None, Some (UnknownWebhook "")) /\
  Parse (Sample.delivery "issues" "" [] "") (Sample.constantKey "")
  = (None, Some Decode.syntaxError).
Proof. vm_compute. repeat split. Qed.

(** ** Conversion and action mapping on samples *)

(** A push without commits is attributed to its pusher. *)
Lemma push_commit_identity_witness :
  scm.Signature_Login
    (scm.Commit_Author
       (scm.PushHook_Commit (convertPushHook Sample.pushWithoutCommits)))
  = "pat".
Proof.
  exact (proj1 (proj1 (push_commit_identity Sample.pushWithoutCommits) eq_refl)).
Defined.

(** The sample push with one commit is attributed to the commit. *)
Example push_with_commit_attributed :
  forall h : scm.PushHook,
    Sample.pushEvent = scm.OfPushHook h ->
    scm.Signature_Login (scm.Commit_Author (scm.PushHook_Commit h)) = "ann" /\
    scm.Signature_Login (scm.Commit_Committer (scm.PushHook_Commit h)) = "bob" /\
    scm.Commit_Message (scm.PushHook_Commit h) = "fix typo".
Proof. intros h Hh. injection Hh as <-. repeat split. Qed.

(** A verb in another case is not mapped. *)
Lemma convertAction_table_witness : convertAction "Closed" = scm.ActionUnknown.
Proof.
  apply (proj2 (proj2 (proj2 (proj2 convertAction_table))) "closed" "Closed").
  - discriminate.
  - reflexivity.
  - discriminate.
Defined.

(** * Further properties of the driver *)

(** ** The limited read *)

Lemma readLimited_prefix (s : string) (e : option error) (eager : bool) :
  forall n : Z,
    (0 <= n)%Z ->
    (size (fst (readLimited n s e eager)) <= n)%Z /\
    exists rest : string, s = (fst (readLimited n s e eager) ++ rest)%string.
Proof.
  unfold size.
  induction s as [|c s IH]; intros n Hn; simpl.
  - destruct (Z.leb_spec n 0); simpl; (split; [lia | now exists ""]).
  - destruct (Z.leb_spec n 0); simpl.
    + split; [lia | now exists (String c s)].
    + destruct (eager && match s with
                         | EmptyString => true
                         | String _ _ => false
                         end) eqn:Hlast.
      * destruct s; [| now rewrite Bool.andb_false_r in Hlast].
        simpl. split; [lia | now exists ""].
      * destruct (IH (n - 1)%Z ltac:(lia)) as (Hlen & rest & Hrest).
        destruct (readLimited (n - 1) s e eager) as [d e'] eqn:Hd.
        simpl in *. split; [lia |]. exists rest. now rewrite <- Hrest.
Qed.

(** X12: what Parse reads of a body is a prefix of the stream of at most
    10,000,000 bytes, whether the read ends well or in an error. *)
Theorem body_read_is_bounded_prefix (r : ReadCloser) :
  (size (fst (ReadAll_LimitReader r bodyLimit)) <= 10000000)%Z /\
  exists rest : string,
    stream_bytes r = (fst (ReadAll_LimitReader r bodyLimit) ++ rest)%string.
Proof.
  unfold ReadAll_LimitReader.
  apply (readLimited_prefix (stream_bytes r) (stream_err r) (stream_eager r)
           bodyLimit).
  unfold bodyLimit. lia.
Qed.

Section Coverage.

Context `{Collaborators}.

(** ** Errors on the way to the event *)

(** X1: a body stream that breaks off before 10,000,000 bytes were
    delivered, or with the 10,000,000th byte when its reader reports the
    error together with its last bytes, makes Parse return no event and
    the stream's error, whatever the headers and the resolver; of a
    stream that breaks off later the read returns the first 10,000,000
    bytes and no error. *)
Theorem stream_error_seen_before_limit (req : Request) (fn : scm.SecretFunc)
  (e : error) :
  stream_err (Body req) = Some e ->
  ((size (stream_bytes (Body req)) < bodyLimit)%Z \/
   (size (stream_bytes (Body req)) = bodyLimit /\
    stream_eager (Body req) = true) ->
   Parse req fn = (None, Some e)) /\
  ((bodyLimit < size (stream_bytes (Body req)))%Z \/
   (size (stream_bytes (Body req)) = bodyLimit /\
    stream_eager (Body req) = false) ->
   exists prefix rest : string,
     stream_bytes (Body req) = (prefix ++ rest)%string /\
     size prefix = 10000000%Z /\
     ReadAll_LimitReader (Body req) bodyLimit = (prefix, None)).
Proof.
  intros Herr. split; intros Hsize.
  - apply (Parse_read_failed req fn (stream_bytes (Body req))).
    unfold ReadAll_LimitReader. rewrite Herr.
    destruct Hsize as [Hshort | [Hfull Heager]].
    + now apply readLimited_whole.
    + rewrite Heager.
      apply (readLimited_exact (stream_bytes (Body req)) (Some e) true);
        [reflexivity | exact Hfull].
  - unfold ReadAll_LimitReader.
    destruct Hsize as [Hlong | [Hfull Heager]].
    + destruct (readLimited_cut (stream_bytes (Body req))
                  (stream_err (Body req)) (stream_eager (Body req)) bodyLimit)
        as (prefix & rest & Hsplit & Hprefix & _ & Hread & _);
        [unfold bodyLimit in *; lia |].
      now exists prefix, rest.
    + exists (stream_bytes (Body req)), "".
      split; [now rewrite append_empty |]. split; [exact Hfull |].
      rewrite Heager.
      apply (readLimited_exact (stream_bytes (Body req))
               (stream_err (Body req)) false); [reflexivity | exact Hfull].
Qed.

(** X2: when the payload decodes and the resolver fails, Parse returns
    the event together with the resolver's error, whatever key the
    resolver returns beside it and whatever signature the request
    carries. *)
Theorem resolver_error_returned_with_event (req : Request)
  (fn : scm.SecretFunc) (data secret key : string)
  (hook : option scm.Webhook) (e : error) :
  ReadAll_LimitReader (Body req) bodyLimit = (data, None) ->
  route (Get (Header req) "X-Gitea-Event") data = Some (hook, secret, None) ->
  fn hook = (key, Some e) ->
  exists event : scm.Webhook,
    hook = Some event /\ Parse req fn = (Some event, Some e).
Proof.
  intros Hread Hroute Hfn.
  destruct (route_decoded_event _ _ _ _ Hroute) as [event ->].
  exists event. split; [reflexivity |].
  exact (Parse_resolver_failed req fn data secret key (Some event) e
           Hread Hroute Hfn).
Qed.

(** ** The whole authentication decision *)

(** X4: with the payload decoded and a non-empty key resolved, Parse
    returns the event, and a nil error exactly when either the request
    has a header signature and the HMAC check of it passes, or it has
    none and the secret (the one embedded in a push, else the form value)
    equals the key byte for byte; in every other case the error is
    ErrSignatureInvalid. *)
Theorem authentication_decision (req : Request) (fn : scm.SecretFunc)
  (data embedded key : string) (hook : option scm.Webhook) :
  ReadAll_LimitReader (Body req) bodyLimit = (data, None) ->
  route (Get (Header req) "X-Gitea-Event") data = Some (hook, embedded, None) ->
  fn hook = (key, None) ->
  key <> "" ->
  Parse req fn =
    (hook,
     if (if Get (Header req) "X-Gitea-Signature" =? ""
         then (if embedded =? ""
               then FormValue (afterBodyRead req) "secret"
               else embedded)
              =? key
         else hmac_Validate data key (Get (Header req) "X-Gitea-Signature"))
     then None
     else Some ErrSignatureInvalid).
Proof.
  intros Hread Hroute Hfn Hkey.
  rewrite (Parse_verified req fn data embedded key hook) by assumption.
  unfold checkSignature.
  set (secret := if embedded =? ""
                 then FormValue (afterBodyRead req) "secret"
                 else embedded).
  destruct (String.eqb_spec (Get (Header req) "X-Gitea-Signature") "")
    as [Hnone|Hsome]; simpl.
  - destruct (String.eqb_spec secret "") as [Hempty|Hgiven]; simpl.
    + rewrite Hempty.
      destruct (String.eqb_spec "" key) as [Heq|_];
        [now contradiction Hkey | reflexivity].
    + now destruct (secret =? key).
  - now destruct (hmac_Validate data key
                    (Get (Header req) "X-Gitea-Signature")).
Qed.

(** ** What Parse can return *)

(** X5: Parse never returns a nil event with a nil error: either it
    returns no event and an error, or it returns an event, and then the
    body was read without error and the routed decoder reported none. *)
Theorem Parse_outcomes (req : Request) (fn : scm.SecretFunc) :
  (exists e : error, Parse req fn = (None, Some e)) \/
  (exists (event : scm.Webhook) (err : option error) (data secret : string),
     Parse req fn = (Some event, err) /\
     ReadAll_LimitReader (Body req) bodyLimit = (data, None) /\
     route (Get (Header req) "X-Gitea-Event") data
     = Some (Some event, secret, None)).
Proof.
  destruct (ReadAll_LimitReader (Body req) bodyLimit) as [data [e|]] eqn:Hread.
  { left. exists e. exact (Parse_read_failed req fn data e Hread). }
  destruct (route (Get (Header req) "X-Gitea-Event") data)
    as [[[hook secret] [e|]]|] eqn:Hroute.
  - left. exists e.
    exact (Parse_decode_failed req fn data secret hook e Hread Hroute).
  - destruct (route_decoded_event _ _ _ _ Hroute) as [event ->].
    right. exists event, (snd (Parse req fn)), data, secret.
    split; [| split; [reflexivity | exact Hroute]].
    rewrite (surjective_pairing (Parse req fn)) at 1. f_equal.
    exact (Parse_decoded_hook req fn data secret (Some event) Hread Hroute).
  - left. eexists. exact (Parse_unrouted req fn data Hread Hroute).
Qed.

(** X6: the event that Parse returns is a function of the body and of the
    event header alone: two requests with the same body and event header
    yield the same event (or both none) under any two resolvers, whatever
    their signature headers and forms. *)
Theorem event_independent_of_authentication (req req' : Request)
  (fn fn' : scm.SecretFunc) :
  Body req' = Body req ->
  Get (Header req') "X-Gitea-Event" = Get (Header req) "X-Gitea-Event" ->
  fst (Parse req fn) = fst (Parse req' fn').
Proof.
  intros Hbody Hevent.
  destruct (ReadAll_LimitReader (Body req) bodyLimit) as [data [e|]] eqn:Hread.
  { rewrite (Parse_read_failed req fn data e Hread).
    rewrite (Parse_read_failed req' fn' data e); [reflexivity |].
    now rewrite Hbody. }
  assert (Hread' : ReadAll_LimitReader (Body req') bodyLimit = (data, None))
    by now rewrite Hbody.
  destruct (route (Get (Header req) "X-Gitea-Event") data)
    as [[[hook secret] [e|]]|] eqn:Hroute.
  - rewrite (Parse_decode_failed req fn data secret hook e Hread Hroute).
    rewrite (Parse_decode_failed req' fn' data secret hook e Hread');
      [reflexivity | now rewrite Hevent].
  - rewrite (Parse_decoded_hook req fn data secret hook Hread Hroute).
    symmetry. apply (Parse_decoded_hook req' fn' data secret hook Hread').
    now rewrite Hevent.
  - rewrite (Parse_unrouted req fn data Hread Hroute).
    rewrite (Parse_unrouted req' fn' data Hread'); [reflexivity |].
    now rewrite Hevent.
Qed.

(** ** The variant of the event *)

Lemma route_kind (ev data secret : string) (event : scm.Webhook)
  (err : option error) :
  route ev data = Some (Some event, secret, err) ->
  match event with
  | scm.OfPushHook _ => ev = "push"
  | scm.OfTagHook h =>
      (ev = "create" /\ scm.TagHook_Action h = scm.ActionCreate)
      \/ (ev = "delete" /\ scm.TagHook_Action h = scm.ActionDelete)
  | scm.OfBranchHook h =>
      (ev = "create" /\ scm.BranchHook_Action h = scm.ActionCreate)
      \/ (ev = "delete" /\ scm.BranchHook_Action h = scm.ActionDelete)
  | scm.OfIssueHook _ => ev = "issues"
  | scm.OfIssueCommentHook _ | scm.OfPullRequestCommentHook _ =>
      ev = "issue_comment"
  | scm.OfPullRequestHook _ => ev = "pull_request"
  | scm.OfReviewHook _ => ev = "reviewed"
  end.
Proof.
  unfold route, parsePushHook, parseCreateHook, parseDeleteHook,
    parseIssueHook, parseIssueCommentHook, parsePullRequestHook,
    parsePullRequestReviewHook.
  intros Hroute.
  destruct (Unmarshal_pushHook data) as [d1 e1],
    (Unmarshal_createHook data) as [d2 e2],
    (Unmarshal_issueHook data) as [d3 e3],
    (Unmarshal_pullRequestHook data) as [d4 e4],
    (Unmarshal_pullRequestReviewHook data) as [d5 e5].
  destruct (String.eqb_spec ev "push") as [->|];
    [simpl in *; inversion Hroute; subst; reflexivity |].
  destruct (String.eqb_spec ev "create") as [->|];
    [simpl in *;
     destruct (createHook_RefType d2 =? "tag");
     [|destruct (createHook_RefType d2 =? "branch")];
     inversion Hroute; subst; left; split; reflexivity |].
  destruct (String.eqb_spec ev "delete") as [->|];
    [simpl in *;
     destruct (createHook_RefType d2 =? "tag");
     [|destruct (createHook_RefType d2 =? "branch")];
     inversion Hroute; subst; right; split; reflexivity |].
  destruct (String.eqb_spec ev "issues") as [->|];
    [simpl in *; inversion Hroute; subst; reflexivity |].
  destruct (String.eqb_spec ev "issue_comment") as [->|];
    [simpl in *; destruct (sdk.Issue_PullRequest (issueHook_Issue d3));
     inversion Hroute; subst; reflexivity |].
  destruct (String.eqb_spec ev "pull_request") as [->|];
    [simpl in *; inversion Hroute; subst; reflexivity |].
  destruct (String.eqb_spec ev "reviewed") as [->|]; [|discriminate].
  simpl in *. inversion Hroute; subst. reflexivity.
Qed.

(** X7: the variant of a returned event tells the event header of the
    request: a push hook comes from push only, an issue hook from issues
    only, both comment hooks from issue_comment, a pull request hook from
    pull_request, a review hook from reviewed, and a tag or branch hook
    from create with the action Create or from delete with the action
    Delete. *)
Theorem event_variant_follows_header (req : Request) (fn : scm.SecretFunc)
  (event : scm.Webhook) (err : option error) :
  Parse req fn = (Some event, err) ->
  match event with
  | scm.OfPushHook _ => Get (Header req) "X-Gitea-Event" = "push"
  | scm.OfTagHook h =>
      (Get (Header req) "X-Gitea-Event" = "create"
       /\ scm.TagHook_Action h = scm.ActionCreate)
      \/ (Get (Header req) "X-Gitea-Event" = "delete"
          /\ scm.TagHook_Action h = scm.ActionDelete)
  | scm.OfBranchHook h =>
      (Get (Header req) "X-Gitea-Event" = "create"
       /\ scm.BranchHook_Action h = scm.ActionCreate)
      \/ (Get (Header req) "X-Gitea-Event" = "delete"
          /\ scm.BranchHook_Action h = scm.ActionDelete)
  | scm.OfIssueHook _ => Get (Header req) "X-Gitea-Event" = "issues"
  | scm.OfIssueCommentHook _ | scm.OfPullRequestCommentHook _ =>
      Get (Header req) "X-Gitea-Event" = "issue_comment"
  | scm.OfPullRequestHook _ => Get (Header req) "X-Gitea-Event" = "pull_request"
  | scm.OfReviewHook _ => Get (Header req) "X-Gitea-Event" = "reviewed"
  end.
Proof.
  intros HParse.
  destruct (Parse_event_inversion req fn event err HParse)
    as (data & secret & _ & Hroute).
  exact (route_kind _ _ _ _ _ Hroute).
Qed.

(** X8: for a create or delete payload that decodes, a tag event carries
    the ref name and the commit pointer of the payload, and a branch
    event carries the ref name and never a commit pointer, also when the
    payload supplies one; both carry the converted repository and
    sender. *)
Theorem ref_event_contents (req : Request) (fn : scm.SecretFunc)
  (data : string) (dst : createHook) :
  ReadAll_LimitReader (Body req) bodyLimit = (data, None) ->
  Get (Header req) "X-Gitea-Event" = "create"
  \/ Get (Header req) "X-Gitea-Event" = "delete" ->
  Unmarshal_createHook data = (dst, None) ->
  (createHook_RefType dst = "tag" ->
   exists h : scm.TagHook,
     fst (Parse req fn) = Some (scm.OfTagHook h) /\
     scm.TagHook_Ref h
     = {| scm.Reference_Name := createHook_Ref dst;
          scm.Reference_Sha := createHook_Sha dst |} /\
     scm.TagHook_Repo h = convertRepository (createHook_Repository dst) /\
     scm.TagHook_Sender h = convertUser (createHook_Sender dst)) /\
  (createHook_RefType dst = "branch" ->
   exists h : scm.BranchHook,
     fst (Parse req fn) = Some (scm.OfBranchHook h) /\
     scm.BranchHook_Ref h
     = {| scm.Reference_Name := createHook_Ref dst;
          scm.Reference_Sha := "" |} /\
     scm.BranchHook_Repo h = convertRepository (createHook_Repository dst) /\
     scm.BranchHook_Sender h = convertUser (createHook_Sender dst)).
Proof.
  intros Hread Hevent Hdst. split; intros Htype.
  - set (action := if Get (Header req) "X-Gitea-Event" =? "create"
                   then scm.ActionCreate else scm.ActionDelete).
    exists (convertTagHook dst action). split; [| repeat split].
    apply (Parse_decoded_hook req fn data "" _ Hread).
    unfold route, parseCreateHook, parseDeleteHook, action.
    rewrite Hdst, Htype. destruct Hevent as [-> | ->]; reflexivity.
  - set (action := if Get (Header req) "X-Gitea-Event" =? "create"
                   then scm.ActionCreate else scm.ActionDelete).
    exists (convertBranchHook dst action). split; [| repeat split].
    apply (Parse_decoded_hook req fn data "" _ Hread).
    unfold route, parseCreateHook, parseDeleteHook, action.
    rewrite Hdst, Htype. destruct Hevent as [-> | ->]; reflexivity.
Qed.

(** ** What the push conversion reads *)

(** X11: the converted push is determined by the ref, the new head, the
    compare link, the repository, the sender and the first commit of the
    payload, and by the pusher when there is no commit; the embedded
    secret, the previous head, the commits after the first and, when
    there is a commit, the pusher have no effect on it. *)
Theorem push_conversion_reads (d1 d2 : pushHook) :
  pushHook_Ref d1 = pushHook_Ref d2 ->
  pushHook_After d1 = pushHook_After d2 ->
  pushHook_Compare d1 = pushHook_Compare d2 ->
  pushHook_Repository d1 = pushHook_Repository d2 ->
  pushHook_Sender d1 = pushHook_Sender d2 ->
  hd_error (pushHook_Commits d1) = hd_error (pushHook_Commits d2) ->
  (pushHook_Commits d1 = [] -> pushHook_Pusher d1 = pushHook_Pusher d2) ->
  convertPushHook d1 = convertPushHook d2.
Proof.
  intros Href Hafter Hcompare Hrepo Hsender Hhead Hpusher.
  unfold convertPushHook.
  destruct (pushHook_Commits d1) as [|c1 rest1],
    (pushHook_Commits d2) as [|c2 rest2]; simpl in Hhead;
    try discriminate.
  - now rewrite Href, Hafter, Hcompare, Hrepo, Hsender, (Hpusher eq_refl).
  - injection Hhead as ->.
    now rewrite Href, Hafter, Hcompare, Hrepo, Hsender.
Qed.

End Coverage.

(** ** The ranges of the action mappers *)

(** X9: the actions that convertAction can return are all the canonical
    actions but Dismissed and Edited; in particular the verbs edit and
    edited give Update, never Edited. *)
Theorem convertAction_range (a : scm.Action) :
  (exists src : string, convertAction src = a)
  <-> a <> scm.ActionDismissed /\ a <> scm.ActionEdited.
Proof.
  split.
  - intros [src <-]. unfold convertAction.
    repeat match goal with
           | |- context [String.eqb src ?k] =>
               destruct (String.eqb src k); simpl;
               try (split; discriminate)
           end.
  - intros [Hd He].
    destruct a; try contradiction;
      [exists "archived" | exists "create" | exists "delete" | exists "update"
      | exists "open" | exists "reopen" | exists "close" | exists "label"
      | exists "unlabel" | exists "merge" | exists "synchronize"
      | exists "assigned" | exists "unassigned" | exists "reviewed"];
      reflexivity.
Qed.

(** X10: convertReviewAction agrees with its three-row table on every
    string, so it maps exactly the three review types, byte for byte, and
    gives Unknown for everything else; the actions it can return are
    Submitted, Edited, Dismissed and Unknown. *)
Theorem convertReviewAction_table :
  (forall src : string,
     convertReviewAction src = mapAction reviewActionTable src) /\
  (forall src : string,
     convertReviewAction src <> scm.ActionUnknown
     <-> In src (map fst reviewActionTable)) /\
  (forall a : scm.Action,
     (exists src : string, convertReviewAction src = a)
     <-> In a [scm.ActionSubmitted; scm.ActionEdited; scm.ActionDismissed;
               scm.ActionUnknown]).
Proof.
  assert (Htable : forall src : string,
             convertReviewAction src = mapAction reviewActionTable src).
  { intros src. unfold convertReviewAction, reviewActionTable, mapAction.
    repeat match goal with
           | |- context [String.eqb src ?k] =>
               destruct (String.eqb src k); simpl; try reflexivity
           end. }
  split; [exact Htable |]. split.
  - intros src. split.
    + intros Hmapped.
      destruct (in_dec string_dec src (map fst reviewActionTable))
        as [Hin|Hout]; [exact Hin |].
      exfalso. apply Hmapped. rewrite Htable. now apply mapAction_absent.
    + simpl. intros [<-|[<-|[<-|[]]]]; discriminate.
  - intros a. split.
    + intros [src <-]. unfold convertReviewAction.
      repeat match goal with
             | |- context [String.eqb src ?k] =>
                 destruct (String.eqb src k); simpl; try tauto
             end.
    + simpl. intros [<-|[<-|[<-|[<-|[]]]]];
        [exists "pull_request_review_approved"
        | exists "pull_request_review_comment"
        | exists "pull_request_review_rejected"
        | exists ""]; reflexivity.
Qed.

(** ** The factory of webhook services *)

Lemma NewWebHookService_default :
  factory.NewWebHookService "" = factory.NewWebHookService "github".
Proof. reflexivity. Qed.

(** X13: NewWebHookService returns neither a service nor an error
    exactly for the drivers fake and fakegit; for every other driver it
    returns one of the two. *)
Theorem NewWebHookService_nothing_for_fake (driver : string) :
  factory.NewWebHookService driver = (None, None)
  <-> driver = "fake" \/ driver = "fakegit".
Proof.
  unfold factory.NewWebHookService. split.
  - destruct (String.eqb_spec driver "") as [->|Hne]; [discriminate |].
    repeat match goal with
           | |- context [String.eqb driver ?k] =>
               destruct (String.eqb_spec driver k); [subst driver |];
               simpl; try discriminate; try tauto
           end.
  - intros [-> | ->]; reflexivity.
Qed.

(** X14: NewWebHookService fails exactly for a non-empty driver name
    outside the ten it knows; the error then names the driver and no
    service is returned, and the empty name selects the github
    service. *)
Theorem NewWebHookService_unsupported (driver : string) :
  (snd (factory.NewWebHookService driver) = None
   <-> driver = "" \/ In driver factory.knownDrivers) /\
  (driver <> "" -> ~ In driver factory.knownDrivers ->
   factory.NewWebHookService driver
   = (None,
      Some (factory.Errorf "Unsupported GIT_KIND value: " driver))) /\
  factory.NewWebHookService "" = (Some factory.githubService, None).
Proof.
  assert (Hfail : driver <> "" -> ~ In driver factory.knownDrivers ->
                  factory.NewWebHookService driver
                  = (None,
                     Some (factory.Errorf "Unsupported GIT_KIND value: "
                             driver))).
  { intros Hne Hout. unfold factory.NewWebHookService.
    destruct (String.eqb_spec driver "") as [|_]; [contradiction |].
    repeat match goal with
           | |- context [String.eqb driver ?k] =>
               destruct (String.eqb_spec driver k);
               [exfalso; apply Hout; subst driver; simpl; tauto |]; simpl
           end.
    reflexivity. }
  split; [| split; [exact Hfail | reflexivity]].
  split.
  - intros Hok.
    destruct (String.eqb_spec driver "") as [|Hne]; [now left |].
    destruct (in_dec string_dec driver factory.knownDrivers) as [Hin|Hout];
      [now right |].
    rewrite (Hfail Hne Hout) in Hok. discriminate.
  - intros [-> | Hin]; [reflexivity |].
    simpl in Hin.
    repeat match type of Hin with
           | _ \/ _ => destruct Hin as [<-|Hin]; [reflexivity |]
           end.
    contradiction.
Qed.

(** X15: ensureBBCEndpoint is idempotent: the endpoint it returns is left
    unchanged by a second application, for every URL. *)
Theorem ensureBBCEndpoint_idempotent (u : string) :
  factory.ensureBBCEndpoint (factory.ensureBBCEndpoint u)
  = factory.ensureBBCEndpoint u.
Proof.
  unfold factory.ensureBBCEndpoint at 2 3.
  destruct (String.prefix "https://bitbucket.org" u
            || String.prefix "http://bitbucket.org" u) eqn:Hprefix.
  - reflexivity.
  - unfold factory.ensureBBCEndpoint. now rewrite Hprefix.
Qed.

(** ** The further properties on sample deliveries *)

(** A connection that breaks after one byte is reported as such. *)
Lemma stream_error_seen_before_limit_witness :
  Parse Fixture.brokenDelivery (Sample.constantKey "")
  = (None, Some (ExternalError "net/http" "unexpected EOF")).
Proof.
  apply (stream_error_seen_before_limit Fixture.brokenDelivery
           (Sample.constantKey "")
           (ExternalError "net/http" "unexpected EOF") eq_refl).
  left. reflexivity.
Defined.

(** The sample push under a resolver that fails. *)
Lemma resolver_error_returned_with_event_witness :
  Parse Sample.forgedPush Fixture.failingResolver
  = (Some Sample.pushEvent, Some (ExternalError "vault" "connection refused")).
Proof.
  destruct (resolver_error_returned_with_event Sample.forgedPush
              Fixture.failingResolver Sample.pushBody "s3cr3t" ""
              (Some Sample.pushEvent)
              (ExternalError "vault" "connection refused"))
    as (event & Hevent & HParse).
  - vm_compute. reflexivity.
  - vm_compute. reflexivity.
  - reflexivity.
  - injection Hevent as <-. exact HParse.
Defined.

(** A cut-off issue payload surfaces the decoding error. *)
Lemma decode_error_surfaces_witness :
  Parse Fixture.truncatedIssue (Sample.constantKey "s3cr3t")
  = (None, Some Decode.syntaxError).
Proof.
  apply (decode_error_surfaces Fixture.truncatedIssue
           (Sample.constantKey "s3cr3t")
           (stream_bytes (Body Fixture.truncatedIssue))).
  - vm_compute. reflexivity.
  - right. left. split; [left |]; vm_compute; reflexivity.
Defined.

(** Without a header signature the embedded secret decides; the form
    value is not consulted when the payload embeds one. *)
Lemma authentication_decision_witness :
  Parse Fixture.unsignedPush (Sample.constantKey "s3cr3t")
  = (Some Sample.pushEvent, None).
Proof.
  rewrite (authentication_decision Fixture.unsignedPush
             (Sample.constantKey "s3cr3t") Sample.pushBody "s3cr3t" "s3cr3t"
             (Some Sample.pushEvent)).
  - vm_compute. reflexivity.
  - vm_compute. reflexivity.
  - vm_compute. reflexivity.
  - reflexivity.
  - discriminate.
Defined.

Example form_secret_does_not_override_embedded :
  Parse Fixture.unsignedPush (Sample.constantKey "topsecret")
  = (Some Sample.pushEvent, Some ErrSignatureInvalid).
Proof. vm_compute. reflexivity. Qed.

(** The forged and the signed push yield the same event. *)
Lemma event_independent_of_authentication_witness :
  fst (Parse Sample.forgedPush (Sample.constantKey "s3cr3t"))
  = fst (Parse Sample.signedPush Fixture.failingResolver).
Proof.
  apply (event_independent_of_authentication Sample.forgedPush
           Sample.signedPush (Sample.constantKey "s3cr3t")
           Fixture.failingResolver); reflexivity.
Defined.

(** The created tag comes back as a tag hook with the action Create. *)
Lemma event_variant_follows_header_witness :
  exists h : scm.TagHook,
    Parse Fixture.tagCreated (Sample.constantKey "")
    = (Some (scm.OfTagHook h), None) /\
    ((Get (Header Fixture.tagCreated) "X-Gitea-Event" = "create"
      /\ scm.TagHook_Action h = scm.ActionCreate)
     \/ (Get (Header Fixture.tagCreated) "X-Gitea-Event" = "delete"
         /\ scm.TagHook_Action h = scm.ActionDelete)).
Proof.
  eexists. split.
  - vm_compute. reflexivity.
  - apply (event_variant_follows_header Fixture.tagCreated
             (Sample.constantKey "") (scm.OfTagHook _) None).
    vm_compute. reflexivity.
Defined.

(** The deleted branch carries its name and no commit pointer, although
    the payload has one. *)
Lemma ref_event_contents_witness :
  createHook_Sha (fst (Unmarshal_createHook Fixture.branchBody)) = "f3e0b1a" /\
  exists h : scm.BranchHook,
    fst (Parse Fixture.branchDeleted (Sample.constantKey ""))
    = Some (scm.OfBranchHook h) /\
    scm.BranchHook_Ref h
    = {| scm.Reference_Name := "feature"; scm.Reference_Sha := "" |}.
Proof.
  split; [vm_compute; reflexivity |].
  destruct (ref_event_contents Fixture.branchDeleted (Sample.constantKey "")
              Fixture.branchBody
              (fst (Unmarshal_createHook Fixture.branchBody)))
    as (_ & Hbranch).
  - vm_compute. reflexivity.
  - right. reflexivity.
  - vm_compute. reflexivity.
  - destruct Hbranch as (h & Hfst & Href & _); [vm_compute; reflexivity |].
    exists h. split; [exact Hfst |]. rewrite Href. vm_compute. reflexivity.
Defined.

(** Two pushes that differ in secret, previous head, pusher and later
    commits convert to the same event. *)
Lemma push_conversion_reads_witness :
  convertPushHook Fixture.pushOne = convertPushHook Fixture.pushTwo.
Proof.
  apply push_conversion_reads; try reflexivity.
  discriminate.
Defined.

(** ** The action of a returned event *)

Lemma convertAction_not_review_action (src : string) :
  convertAction src <> scm.ActionDismissed /\
  convertAction src <> scm.ActionEdited.
Proof.
  unfold convertAction.
  repeat match goal with
         | |- context [String.eqb src ?k] =>
             destruct (String.eqb src k); simpl; try (split; discriminate)
         end.
Qed.

Lemma convertReviewAction_cases (src : string) :
  In (convertReviewAction src)
    [scm.ActionSubmitted; scm.ActionEdited; scm.ActionDismissed;
     scm.ActionUnknown].
Proof.
  unfold convertReviewAction.
  repeat match goal with
         | |- context [String.eqb src ?k] =>
             destruct (String.eqb src k); simpl; try tauto
         end.
Qed.

Section Actions.

Context `{Collaborators}.

Lemma route_action (ev data secret : string) (event : scm.Webhook)
  (err : option error) :
  route ev data = Some (Some event, secret, err) ->
  match event with
  | scm.OfPushHook _ => True
  | scm.OfTagHook h =>
      In (scm.TagHook_Action h) [scm.ActionCreate; scm.ActionDelete]
  | scm.OfBranchHook h =>
      In (scm.BranchHook_Action h) [scm.ActionCreate; scm.ActionDelete]
  | scm.OfIssueHook h =>
      scm.IssueHook_Action h
      = convertAction (issueHook_Action (fst (Unmarshal_issueHook data)))
  | scm.OfIssueCommentHook h =>
      scm.IssueCommentHook_Action h
      = convertAction (issueHook_Action (fst (Unmarshal_issueHook data)))
  | scm.OfPullRequestCommentHook h =>
      scm.PullRequestCommentHook_Action h
      = convertAction (issueHook_Action (fst (Unmarshal_issueHook data)))
  | scm.OfPullRequestHook h =>
      scm.PullRequestHook_Action h
      = convertAction
          (pullRequestHook_Action (fst (Unmarshal_pullRequestHook data)))
  | scm.OfReviewHook h =>
      scm.ReviewHook_Action h
      = convertReviewAction
          (pullRequestReviewPayload_Type
             (pullRequestReviewHook_Review
                (fst (Unmarshal_pullRequestReviewHook data))))
  end.
Proof.
  unfold route, parsePushHook, parseCreateHook, parseDeleteHook,
    parseIssueHook, parseIssueCommentHook, parsePullRequestHook,
    parsePullRequestReviewHook.
  intros Hroute.
  destruct (Unmarshal_pushHook data) as [d1 e1],
    (Unmarshal_createHook data) as [d2 e2],
    (Unmarshal_issueHook data) as [d3 e3],
    (Unmarshal_pullRequestHook data) as [d4 e4],
    (Unmarshal_pullRequestReviewHook data) as [d5 e5].
  destruct (String.eqb_spec ev "push") as [->|];
    [simpl in *; inversion Hroute; subst; exact I |].
  destruct (String.eqb_spec ev "create") as [->|];
    [simpl in *;
     destruct (createHook_RefType d2 =? "tag");
     [|destruct (createHook_RefType d2 =? "branch")];
     inversion Hroute; subst; simpl; tauto |].
  destruct (String.eqb_spec ev "delete") as [->|];
    [simpl in *;
     destruct (createHook_RefType d2 =? "tag");
     [|destruct (createHook_RefType d2 =? "branch")];
     inversion Hroute; subst; simpl; tauto |].
  destruct (String.eqb_spec ev "issues") as [->|];
    [simpl in *; inversion Hroute; subst; reflexivity |].
  destruct (String.eqb_spec ev "issue_comment") as [->|];
    [simpl in *; destruct (sdk.Issue_PullRequest (issueHook_Issue d3));
     inversion Hroute; subst; reflexivity |].
  destruct (String.eqb_spec ev "pull_request") as [->|];
    [simpl in *; inversion Hroute; subst; reflexivity |].
  destruct (String.eqb_spec ev "reviewed") as [->|]; [|discriminate].
  simpl in *. inversion Hroute; subst. reflexivity.
Qed.

(** X16: the action of a returned event is fixed by its variant: Create
    or Delete for a tag or branch hook; for an issue, issue comment,
    pull request or pull request comment hook the mapped action verb of
    the payload, which is never Dismissed or Edited; for a review hook
    the mapped review type of the payload, which is Submitted, Edited,
    Dismissed or Unknown whatever the action verb of the payload says. *)
Theorem event_action_by_variant (req : Request) (fn : scm.SecretFunc)
  (event : scm.Webhook) (err : option error) :
  Parse req fn = (Some event, err) ->
  exists data : string,
    ReadAll_LimitReader (Body req) bodyLimit = (data, None) /\
    match event with
    | scm.OfPushHook _ => True
    | scm.OfTagHook h =>
        In (scm.TagHook_Action h) [scm.ActionCreate; scm.ActionDelete]
    | scm.OfBranchHook h =>
        In (scm.BranchHook_Action h) [scm.ActionCreate; scm.ActionDelete]
    | scm.OfIssueHook h =>
        scm.IssueHook_Action h
        = convertAction (issueHook_Action (fst (Unmarshal_issueHook data))) /\
        scm.IssueHook_Action h <> scm.ActionDismissed /\
        scm.IssueHook_Action h <> scm.ActionEdited
    | scm.OfIssueCommentHook h =>
        scm.IssueCommentHook_Action h
        = convertAction (issueHook_Action (fst (Unmarshal_issueHook data))) /\
        scm.IssueCommentHook_Action h <> scm.ActionDismissed /\
        scm.IssueCommentHook_Action h <> scm.ActionEdited
    | scm.OfPullRequestCommentHook h =>
        scm.PullRequestCommentHook_Action h
        = convertAction (issueHook_Action (fst (Unmarshal_issueHook data))) /\
        scm.PullRequestCommentHook_Action h <> scm.ActionDismissed /\
        scm.PullRequestCommentHook_Action h <> scm.ActionEdited
    | scm.OfPullRequestHook h =>
        scm.PullRequestHook_Action h
        = convertAction
            (pullRequestHook_Action (fst (Unmarshal_pullRequestHook data))) /\
        scm.PullRequestHook_Action h <> scm.ActionDismissed /\
        scm.PullRequestHook_Action h <> scm.ActionEdited
    | scm.OfReviewHook h =>
        scm.ReviewHook_Action h
        = convertReviewAction
            (pullRequestReviewPayload_Type
               (pullRequestReviewHook_Review
                  (fst (Unmarshal_pullRequestReviewHook data)))) /\
        In (scm.ReviewHook_Action h)
          [scm.ActionSubmitted; scm.ActionEdited; scm.ActionDismissed;
           scm.ActionUnknown]
    end.
Proof.
  intros HParse.
  destruct (Parse_event_inversion req fn event err HParse)
    as (data & secret & Hread & Hroute).
  exists data. split; [exact Hread |].
  pose proof (route_action _ _ _ _ _ Hroute) as Haction.
  destruct event; try exact Haction;
    (split; [exact Haction |]); rewrite Haction;
    try apply convertAction_not_review_action.
  apply convertReviewAction_cases.
Qed.

End Actions.

(** The comment on the pull request comes back with the mapped verb of
    its payload, Create for [created]. *)
Lemma event_action_by_variant_witness :
  exists data : string,
    ReadAll_LimitReader (Body Sample.formAuthenticated) bodyLimit
    = (data, None) /\
    scm.ActionCreate
    = convertAction (issueHook_Action (fst (Unmarshal_issueHook data))) /\
    scm.ActionCreate <> scm.ActionDismissed /\
    scm.ActionCreate <> scm.ActionEdited.
Proof.
  assert (HParse : Parse Sample.formAuthenticated (Sample.constantKey "s3cr3t")
                   = (Some Sample.commentEvent, None))
    by (vm_compute; reflexivity).
  exact (event_action_by_variant Sample.formAuthenticated
           (Sample.constantKey "s3cr3t") Sample.commentEvent None HParse).
Defined.
